(** * A shallow embedding of [ExcelOperator] (src/src/excel_operator.py)

    Python strings are sequences of Unicode code points; they are modelled as
    [list N].  The workbook is the data an Excel file holds (sheets, the used
    range of cells, shapes); the file system is a map from paths to workbooks.
    Every operation runs in a small state-and-exception monad whose state is
    the file system together with a trace of the observable effects (COM
    dispatch, open, writes, save, close, quit, print). *)

From Stdlib Require Import List Bool Arith NArith ZArith Lia Ascii String.
From Stdlib Require Import Sorting.Sorted Sorting.Permutation.
From Stdlib Require Import PrimFloat Uint63.
Import ListNotations.

Set Implicit Arguments.
Set Warnings "-inexact-float,-register-all,-deprecated".
Open Scope list_scope.

(** ** Python strings *)

Definition pystr := list N.

(** Literal helper: an ASCII Rocq string as a Python string. *)
Definition py (s : string) : pystr :=
  map (fun a => N_of_ascii a) (list_ascii_of_string s).

Fixpoint str_eqb (a b : pystr) : bool :=
  match a, b with
  | [], [] => true
  | x :: a', y :: b' => N.eqb x y && str_eqb a' b'
  | _, _ => false
  end.

(** [s.startswith(p)] *)
Fixpoint prefixb (p s : pystr) : bool :=
  match p, s with
  | [], _ => true
  | x :: p', y :: s' => N.eqb x y && prefixb p' s'
  | _, [] => false
  end.

(** [sub in s] *)
Fixpoint infixb (sub s : pystr) : bool :=
  prefixb sub s || match s with [] => false | _ :: s' => infixb sub s' end.

(** [s.replace(old, new)]: every non-overlapping occurrence, left to right;
    an empty [old] inserts [new] before every character and at the end. *)
Fixpoint replace_go (old new : pystr) (skip : nat) (s : pystr) : pystr :=
  match s with
  | [] => []
  | c :: s' =>
      match skip with
      | S k => replace_go old new k s'
      | O => if prefixb old s then new ++ replace_go old new (List.length old - 1) s'
             else c :: replace_go old new 0 s'
      end
  end.

Definition py_replace (s old new : pystr) : pystr :=
  match old with
  | [] => new ++ flat_map (fun c => c :: new) s
  | _ => replace_go old new 0 s
  end.

(** [str(n)] for a non-negative integer. *)
Fixpoint uint_digits (d : Decimal.uint) : pystr :=
  match d with
  | Decimal.Nil => []
  | Decimal.D0 d => 48 :: uint_digits d
  | Decimal.D1 d => 49 :: uint_digits d
  | Decimal.D2 d => 50 :: uint_digits d
  | Decimal.D3 d => 51 :: uint_digits d
  | Decimal.D4 d => 52 :: uint_digits d
  | Decimal.D5 d => 53 :: uint_digits d
  | Decimal.D6 d => 54 :: uint_digits d
  | Decimal.D7 d => 55 :: uint_digits d
  | Decimal.D8 d => 56 :: uint_digits d
  | Decimal.D9 d => 57 :: uint_digits d
  end%N.

Definition py_str_N (n : N) : pystr := uint_digits (N.to_uint n).

(** [chr(i)]: raises [ValueError] beyond the last code point 0x10FFFF. *)
Definition py_chr (i : N) : option N :=
  if (i <=? 1114111)%N then Some i else None.

(** [s.lower()] on the ASCII letters (the only letters of 'asc' and 'desc'). *)
Definition lower_cp (c : N) : N :=
  if ((65 <=? c) && (c <=? 90))%N then (c + 32)%N else c.

Definition py_lower (s : pystr) : pystr := map lower_cp s.

(** Python's [<] on strings: lexicographic on code points. *)
Fixpoint str_ltb (a b : pystr) : bool :=
  match a, b with
  | [], [] => false
  | [], _ :: _ => true
  | _ :: _, [] => false
  | x :: a', y :: b' => (x <? y)%N || (N.eqb x y && str_ltb a' b')
  end.

(** ** Regular expressions

    [re.compile], [pattern.search] and [pattern.sub] belong to Python's [re]
    module; the operations are written against this interface.  [re_compile]
    answers [None] where [re.compile] raises [re.error]. *)

Class RegexEngine := {
  re_pat : Type;
  re_compile : pystr -> option re_pat;
  re_search : re_pat -> pystr -> bool;
  re_sub : re_pat -> pystr -> pystr -> pystr
}.

(** [re.escape] (Python 3.7 and later): a backslash before each character of
    [()[]{}?*+-|^$\.&~# \t\n\r\v\f]. *)
Definition re_special : list N :=
  map (fun a => N_of_ascii a)
      (list_ascii_of_string "()[]{}?*+-|^$\.&~# ") ++ [9; 10; 13; 11; 12]%N.

Definition re_escape (s : pystr) : pystr :=
  flat_map (fun c => if existsb (N.eqb c) re_special then [92%N; c] else [c]) s.

(** A regular-expression engine for the fragment of Python's syntax made of
    literal characters, backslash escapes of non-alphanumeric characters, [.],
    and the anchors [^] and [$] (without flags).  Every pattern that
    [re_escape] builds, anchored or not, is in the fragment; a pattern outside
    it is rejected by [Fragment.parse].  Replacement strings are inserted as
    they are (Python's [sub] agrees when they hold no backslash). *)
Module Fragment.

Inductive atom := AChr (c : N) | AAny | ABol | AEol.

Definition is_alnum (c : N) : bool :=
  ((48 <=? c)%N && (c <=? 57)%N) || ((65 <=? c)%N && (c <=? 90)%N) ||
  ((97 <=? c)%N && (c <=? 122)%N).

Definition unsupported : list N :=
  map (fun a => N_of_ascii a) (list_ascii_of_string "*+?{}[]()|").

Fixpoint parse (p : pystr) : option (list atom) :=
  match p with
  | [] => Some []
  | 92%N :: rest =>
      match rest with
      | [] => None
      | c :: rest' =>
          if is_alnum c then None
          else option_map (cons (AChr c)) (parse rest')
      end
  | c :: rest =>
      if N.eqb c 46 then option_map (cons AAny) (parse rest)
      else if N.eqb c 94 then option_map (cons ABol) (parse rest)
      else if N.eqb c 36 then option_map (cons AEol) (parse rest)
      else if existsb (N.eqb c) unsupported then None
      else option_map (cons (AChr c)) (parse rest)
  end.

(** Match the atoms at the front of [s]; [at_start] says whether [s] is the
    whole subject.  The result is the number of characters consumed. *)
Fixpoint match_at (at_start : bool) (p : list atom) (s : pystr) : option nat :=
  match p with
  | [] => Some 0
  | AChr c :: p' =>
      match s with
      | c' :: s' => if N.eqb c c' then option_map S (match_at false p' s') else None
      | [] => None
      end
  | AAny :: p' =>
      match s with
      | c' :: s' => if N.eqb c' 10 then None else option_map S (match_at false p' s')
      | [] => None
      end
  | ABol :: p' => if at_start then match_at at_start p' s else None
  | AEol :: p' =>
      match s with
      | [] | [10%N] => match_at at_start p' s
      | _ => None
      end
  end.

Fixpoint search_from (p : list atom) (at_start : bool) (s : pystr) : bool :=
  match match_at at_start p s with
  | Some _ => true
  | None => match s with [] => false | _ :: s' => search_from p false s' end
  end.

Fixpoint sub_from (p : list atom) (repl : pystr) (fuel : nat)
    (at_start : bool) (s : pystr) : pystr :=
  match fuel with
  | O => s
  | S fuel' =>
      match match_at at_start p s with
      | Some 0 =>
          repl ++ match s with
                  | [] => []
                  | c :: s' => c :: sub_from p repl fuel' false s'
                  end
      | Some k => repl ++ sub_from p repl fuel' false (skipn k s)
      | None =>
          match s with
          | [] => []
          | c :: s' => c :: sub_from p repl fuel' false s'
          end
      end
  end.

Definition sub (p : list atom) (repl s : pystr) : pystr :=
  sub_from p repl (S (List.length s)) true s.

End Fragment.

#[export] Instance fragment_engine : RegexEngine := {
  re_pat := list Fragment.atom;
  re_compile := Fragment.parse;
  re_search := fun p s => Fragment.search_from p true s;
  re_sub := Fragment.sub
}.

(** ** Data model *)

(** A cell value as COM or openpyxl hands it over; [str(v)] of a number is
    kept as the text Python prints for it. *)
Inductive pyval := PStr (s : pystr) | PNum (text : pystr).

Definition py_str_val (v : pyval) : pystr :=
  match v with PStr s => s | PNum t => t end.

Record cell := mk_cell {
  c_row : N;          (** [cell.Row], 1-based *)
  c_col : N;          (** [cell.Column], 1-based *)
  c_value : option pyval;
  c_font : pystr
}.

Record shape := mk_shape { sp_name : pystr; sp_text : pystr }.

(** A worksheet: its name, the rows of its used range, its shapes, and the
    row height and column width set on all its cells (if ever set). *)
Record worksheet := mk_sheet {
  ws_name : pystr;
  ws_rows : list (list cell);
  ws_shapes : list shape;
  ws_row_height : option float;
  ws_col_width : option float
}.

Record workbook := mk_wb { wb_sheets : list worksheet }.

Definition sheetnames (wb : workbook) : list pystr := map ws_name (wb_sheets wb).

(** ** Effects *)

Inductive exn :=
  | OpenError        (** the workbook file cannot be opened *)
  | ValueError
  | KeyError
  | AttributeError
  | ReError          (** [re.error] from [re.compile] *)
  | ComError.        (** an automation call that fails, e.g. a missing sheet *)

Inductive event :=
  | EDispatch                          (** [win32com.client.Dispatch] *)
  | EOpen (path : pystr) (read_only : bool)
  | ELoad (path : pystr)               (** [openpyxl.load_workbook] *)
  | EPrint                             (** a message on standard output *)
  | ESetCell (sheet : pystr) (row col : N) (v : pystr)
  | ESetShape (sheet name text : pystr)
  | ESetRowHeight (sheet : pystr) (h : float)
  | ESetColWidth (sheet : pystr) (w : float)
  | EWriteCsv (path : pystr) (rows : list (list (option pyval)))
  | ESave (path : pystr)
  | EClose (save_changes : bool)
  | EQuit.

Record world := mk_world {
  w_files : pystr -> option workbook;  (** [None]: the file cannot be opened *)
  w_log : list event
}.

Inductive res (A : Type) := Ok (a : A) | Raise (e : exn).
Arguments Ok {A} a.
Arguments Raise {A} e.

Definition M (A : Type) := world -> res A * world.

Definition ret {A} (a : A) : M A := fun w => (Ok a, w).

Definition bind {A B} (m : M A) (k : A -> M B) : M B :=
  fun w => match m w with
           | (Ok a, w') => k a w'
           | (Raise e, w') => (Raise e, w')
           end.

Definition raise {A} (e : exn) : M A := fun w => (Raise e, w).

Definition catch {A} (m : M A) (h : exn -> M A) : M A :=
  fun w => match m w with
           | (Raise e, w') => h e w'
           | r => r
           end.

Definition emit (e : event) : M unit :=
  fun w => (Ok tt, mk_world (w_files w) (w_log w ++ [e])).

Notation "x <- m ;; k" := (bind m (fun x => k))
  (at level 61, m at next level, right associativity).
Notation "m ;;; k" := (bind m (fun _ => k)) (at level 61, right associativity).

Fixpoint foldM {A B} (f : B -> A -> M B) (b : B) (l : list A) : M B :=
  match l with
  | [] => ret b
  | x :: l' => b' <- f b x ;; foldM f b' l'
  end.

(** Visit a list, rebuilding each element and threading an accumulator. *)
Fixpoint map_accumM {A B} (f : B -> A -> M (A * B)) (b : B) (l : list A)
    : M (list A * B) :=
  match l with
  | [] => ret ([], b)
  | x :: l' =>
      r <- f b x ;;
      r' <- map_accumM f (snd r) l' ;;
      ret (fst r :: fst r', snd r')
  end.

Definition write_file (path : pystr) (wb : workbook) : M unit :=
  fun w => (Ok tt, mk_world (fun q => if str_eqb q path then Some wb else w_files w q)
                            (w_log w)).

(** [excel.Workbooks.Open(path, ReadOnly=...)] *)
Definition com_open (path : pystr) (read_only : bool) : M workbook :=
  fun w => match w_files w path with
           | None => (Raise OpenError, w)
           | Some wb => (Ok wb, mk_world (w_files w) (w_log w ++ [EOpen path read_only]))
           end.

(** [openpyxl.load_workbook(path)] *)
Definition load_workbook (path : pystr) : M workbook :=
  fun w => match w_files w path with
           | None => (Raise OpenError, w)
           | Some wb => (Ok wb, mk_world (w_files w) (w_log w ++ [ELoad path]))
           end.

(** [wb.Save()] on the automation workbook, or [wb.save(path)] in openpyxl. *)
Definition save_as (path : pystr) (wb : workbook) : M unit :=
  write_file path wb ;;; emit (ESave path).

(** ** The operations *)

Section Operations.

Context {RE : RegexEngine}.

(** [str(cell.Value) if cell.Value is not None else ""] *)
Definition cell_str (c : cell) : pystr :=
  match c_value c with Some v => py_str_val v | None => [] end.

(** [f"{chr(cell.Column + 64)}{cell.Row}"]; [None] where [chr] raises. *)
Definition cell_label (c : cell) : option pystr :=
  option_map (fun col_letter => col_letter :: py_str_N (c_row c))
             (py_chr (c_col c + 64)).

Definition cell_label_M (c : cell) : M pystr :=
  match cell_label c with Some l => ret l | None => raise ValueError end.

(** [f"図形: {shape.Name}"] *)
Definition shape_label (name : pystr) : pystr := [22259; 24418]%N ++ py ": " ++ name.

Definition compile (p : pystr) : M re_pat :=
  match re_compile p with Some pat => ret pat | None => raise ReError end.

(** The [pattern] of search and replace. *)
Definition make_pattern (search_string : pystr) (exact_match use_regex : bool)
    : M (option re_pat) :=
  if use_regex then
    if exact_match then
      p <- compile ([94%N] ++ re_escape search_string ++ [36%N]) ;; ret (Some p)
    else p <- compile search_string ;; ret (Some p)
  else ret None.

(** [pattern.search(text)]; [None.search] raises. *)
Definition pattern_search (pattern : option re_pat) (text : pystr) : M bool :=
  match pattern with
  | Some p => ret (re_search p text)
  | None => raise AttributeError
  end.

(** *** [search_string_in_book] *)

Definition search_record := (pystr * pystr * pystr)%type.

Section Search.

Variables (pattern : option re_pat) (search_string : pystr)
          (exact_match use_regex : bool) (sheet_name : pystr).

Definition search_cell (results : list search_record) (c : cell)
    : M (list search_record) :=
  let cell_value := cell_str c in
  let found := (loc <- cell_label_M c ;;
                ret (results ++ [(sheet_name, loc, cell_value)])) in
  if use_regex then
    b <- pattern_search pattern cell_value ;;
    if b then found else ret results
  else if exact_match then
    if str_eqb cell_value search_string then found else ret results
  else if infixb search_string cell_value then found else ret results.

Definition search_shape (results : list search_record) (s : shape)
    : M (list search_record) :=
  let shape_text := sp_text s in
  let shape_name := sp_name s in
  let found := ret (results ++ [(sheet_name, shape_label shape_name, shape_text)]) in
  if use_regex then
    b <- pattern_search pattern shape_text ;;
    if b then found else ret results
  else if exact_match then
    if str_eqb shape_text search_string then found else ret results
  else if infixb search_string shape_text then found else ret results.

End Search.

Definition search_sheet pattern search_string exact_match use_regex
    (results : list search_record) (sheet : worksheet) : M (list search_record) :=
  let sheet_name := ws_name sheet in
  r <- foldM (fun r row =>
                foldM (search_cell pattern search_string exact_match use_regex sheet_name)
                      r row)
             results (ws_rows sheet) ;;
  foldM (search_shape pattern search_string exact_match use_regex sheet_name)
        r (ws_shapes sheet).

Definition search_string_in_book (excel_file_path search_string : pystr)
    (exact_match use_regex : bool) : M (list search_record) :=
  emit EDispatch ;;;
  wb <- com_open excel_file_path true ;;
  pattern <- make_pattern search_string exact_match use_regex ;;
  results <- foldM (search_sheet pattern search_string exact_match use_regex)
                   [] (wb_sheets wb) ;;
  emit (EClose false) ;;;
  emit EQuit ;;;
  ret results.

(** *** [replace_string_in_book] *)

Definition replace_record := (pystr * pystr * pystr * pystr)%type.

(** The [new_value] (or [new_shape_text]) computed from [text]. *)
Definition compute_new (pattern : option re_pat) (search_string replace_string : pystr)
    (exact_match use_regex : bool) (text : pystr) : M pystr :=
  if use_regex then
    b <- pattern_search pattern text ;;
    if b then
      match pattern with
      | Some p => ret (re_sub p replace_string text)
      | None => raise AttributeError
      end
    else ret text
  else if exact_match then
    ret (if str_eqb text search_string then replace_string else text)
  else ret (if infixb search_string text then py_replace text search_string replace_string
            else text).

(** [cell.Value = new_value], with the value as assigned; Excel's own reading
    of an assigned string (a leading apostrophe, numbers, dates, formulas) is
    left out, so nothing here is said about what the saved cell reads back. *)
Definition set_value (c : cell) (v : pyval) : cell :=
  mk_cell (c_row c) (c_col c) (Some v) (c_font c).

Section Replace.

Variables (pattern : option re_pat) (search_string replace_string : pystr)
          (exact_match use_regex : bool) (sheet_name : pystr).

Definition replace_cell (results : list replace_record) (c : cell)
    : M (cell * list replace_record) :=
  let cell_value := cell_str c in
  new_value <- compute_new pattern search_string replace_string exact_match use_regex
                           cell_value ;;
  if negb (str_eqb new_value cell_value) then
    loc <- cell_label_M c ;;
    emit (ESetCell sheet_name (c_row c) (c_col c) new_value) ;;;
    ret (set_value c (PStr new_value), results ++ [(sheet_name, loc, cell_value, new_value)])
  else ret (c, results).

Definition replace_shape (results : list replace_record) (s : shape)
    : M (shape * list replace_record) :=
  let shape_text := sp_text s in
  new_shape_text <- compute_new pattern search_string replace_string exact_match
                                use_regex shape_text ;;
  if negb (str_eqb new_shape_text shape_text) then
    emit (ESetShape sheet_name (sp_name s) new_shape_text) ;;;
    ret (mk_shape (sp_name s) new_shape_text,
         results ++ [(sheet_name, shape_label (sp_name s), shape_text, new_shape_text)])
  else ret (s, results).

End Replace.

Definition replace_sheet pattern search_string replace_string exact_match use_regex
    (results : list replace_record) (sheet : worksheet)
    : M (worksheet * list replace_record) :=
  let sheet_name := ws_name sheet in
  rows <- map_accumM (fun r row =>
            map_accumM (replace_cell pattern search_string replace_string exact_match
                                     use_regex sheet_name) r row)
          results (ws_rows sheet) ;;
  shapes <- map_accumM (replace_shape pattern search_string replace_string exact_match
                                      use_regex sheet_name)
            (snd rows) (ws_shapes sheet) ;;
  ret (mk_sheet sheet_name (fst rows) (fst shapes) (ws_row_height sheet)
                (ws_col_width sheet), snd shapes).

Definition replace_string_in_book (excel_file_path search_string replace_string : pystr)
    (exact_match use_regex : bool) : M (list replace_record) :=
  emit EPrint ;;;
  emit EDispatch ;;;
  opened <- catch (wb <- com_open excel_file_path false ;; ret (Some wb))
                  (fun _ => emit EPrint ;;; ret None) ;;
  match opened with
  | None => ret []
  | Some wb =>
      pattern <- make_pattern search_string exact_match use_regex ;;
      r <- map_accumM (replace_sheet pattern search_string replace_string exact_match
                                     use_regex)
                      [] (wb_sheets wb) ;;
      save_as excel_file_path (mk_wb (fst r)) ;;;
      emit (EClose false) ;;;
      emit EQuit ;;;
      ret (snd r)
  end.

End Operations.

(** *** [set_grid_size] *)

(** Python's [int] to [float] (exact below 2^53; the model covers
    |pixel_size| < 2^62). *)
Definition float_of_int (z : Z) : float :=
  if (z <? 0)%Z then (- PrimFloat.of_uint63 (Uint63.of_Z (- z)))%float
  else PrimFloat.of_uint63 (Uint63.of_Z z).

(** What [set_grid_size] returns: [None] at its end, [[]] after a failed open. *)
Inductive grid_result := RetNone | RetEmptyList.

(** [wb.Worksheets(name)]: Excel looks sheet names up case-insensitively. *)
Definition sheet_key (name : pystr) : pystr := py_lower name.

Fixpoint find_sheet (name : pystr) (l : list worksheet) : option worksheet :=
  match l with
  | [] => None
  | s :: l' => if str_eqb (sheet_key (ws_name s)) (sheet_key name) then Some s
               else find_sheet name l'
  end.

(** [ws.Cells.RowHeight = h; ws.Cells.ColumnWidth = w] on the sheet found. *)
Fixpoint set_sheet_size (name : pystr) (h cw : float) (l : list worksheet)
    : list worksheet :=
  match l with
  | [] => []
  | s :: l' =>
      if str_eqb (sheet_key (ws_name s)) (sheet_key name) then
        mk_sheet (ws_name s) (ws_rows s) (ws_shapes s) (Some h) (Some cw) :: l'
      else s :: set_sheet_size name h cw l'
  end.

(** A name of ASCII characters only: there [sheet_key] agrees with Excel's
    case-insensitive comparison of sheet names. *)
Definition ascii_name (name : pystr) : bool := forallb (fun c => (c <? 128)%N) name.

(** [ws.Cells.RowHeight = h]: Excel takes a row height of 0 to 409 points
    and raises a COM error for any other value. *)
Definition row_height_ok (h : float) : bool :=
  PrimFloat.leb 0 h && PrimFloat.leb h 409.

(** [ws.Cells.ColumnWidth = w]: Excel takes a column width of 0 to 255
    characters and raises a COM error for any other value. *)
Definition column_width_ok (cw : float) : bool :=
  PrimFloat.leb 0 cw && PrimFloat.leb cw 255.

Definition set_row_height (name : pystr) (h : float) : M unit :=
  if row_height_ok h then emit (ESetRowHeight name h) else raise ComError.

Definition set_column_width (name : pystr) (cw : float) : M unit :=
  if column_width_ok cw then emit (ESetColWidth name cw) else raise ComError.

Definition set_grid_size (excel_file_path sheet_name : pystr) (pixel_size : Z)
    : M grid_result :=
  emit EDispatch ;;;
  opened <- catch (wb <- com_open excel_file_path false ;; ret (Some wb))
                  (fun _ => emit EPrint ;;; ret None) ;;
  match opened with
  | None => ret RetEmptyList
  | Some wb =>
      match find_sheet sheet_name (wb_sheets wb) with
      | None => raise ComError
      | Some ws =>
          let row_size := (float_of_int pixel_size * 0.75)%float in
          let col_size := (float_of_int pixel_size * 0.14)%float in
          set_row_height (ws_name ws) row_size ;;;
          set_column_width (ws_name ws) col_size ;;;
          (* [wb.Close(True)] saves, then closes; a failure is printed *)
          catch (save_as excel_file_path
                   (mk_wb (set_sheet_size sheet_name row_size col_size (wb_sheets wb))) ;;;
                 emit (EClose true) ;;; emit EPrint)
                (fun _ => emit EPrint) ;;;
          ret RetNone
      end
  end.

(** *** The openpyxl operations *)

Definition get_sheets_name (excel_file_path : pystr) : M (list pystr) :=
  wb <- load_workbook excel_file_path ;; ret (sheetnames wb).

(** [sorted(names)]: insertion into a list kept in ascending order.  Python's
    order on strings is total and two strings that compare equal are equal, so
    every stable sort, Timsort included, gives this list. *)
Fixpoint insert_sorted (x : pystr) (l : list pystr) : list pystr :=
  match l with
  | [] => [x]
  | y :: l' => if str_ltb y x then y :: insert_sorted x l' else x :: l
  end.

Fixpoint sort_names (l : list pystr) : list pystr :=
  match l with
  | [] => []
  | x :: l' => insert_sorted x (sort_names l')
  end.

(** [sorted(names, reverse=rev)]: with equal elements equal, the reversed
    stable sort is the reversal of the ascending one. *)
Definition py_sorted (l : list pystr) (reverse : bool) : list pystr :=
  if reverse then rev (sort_names l) else sort_names l.

Definition sort_sheet (excel_file_path order : pystr) : M (list pystr) :=
  let order := py_lower order in
  if negb (existsb (str_eqb order) [py "asc"; py "desc"]) then raise ValueError
  else
    wb <- load_workbook excel_file_path ;;
    ret (py_sorted (sheetnames wb) (str_eqb order (py "desc"))).

(** [wb[name]] in openpyxl: exact title, [KeyError] when absent. *)
Fixpoint get_sheet (name : pystr) (l : list worksheet) : option worksheet :=
  match l with
  | [] => None
  | s :: l' => if str_eqb (ws_name s) name then Some s else get_sheet name l'
  end.

Definition get_sheet_M (wb : workbook) (name : pystr) : M worksheet :=
  match get_sheet name (wb_sheets wb) with Some s => ret s | None => raise KeyError end.

(** The CSV output is only recorded as an event: the file written, a failing
    [open], and the rows [iter_rows] gives from A1 are left out. *)
Definition convert_csv (excel_file_path sheet_name csv_file_path : pystr) : M unit :=
  wb <- load_workbook excel_file_path ;;
  if negb (existsb (str_eqb sheet_name) (sheetnames wb)) then raise ValueError
  else
    ws <- get_sheet_M wb sheet_name ;;
    emit (EWriteCsv csv_file_path (map (map c_value) (ws_rows ws))).

Definition set_font (font_name : pystr) (c : cell) : cell :=
  mk_cell (c_row c) (c_col c) (c_value c) font_name.

(** The workbook with every cell of the sheet [ws] (the first of that title)
    in [font_name]. *)
Fixpoint apply_font (name font_name : pystr) (l : list worksheet) : list worksheet :=
  match l with
  | [] => []
  | s :: l' =>
      if str_eqb (ws_name s) name then
        mk_sheet (ws_name s) (map (map (set_font font_name)) (ws_rows s)) (ws_shapes s)
                 (ws_row_height s) (ws_col_width s) :: l'
      else s :: apply_font name font_name l'
  end.

Definition change_font (excel_file_path sheet_name font_name : pystr) : M unit :=
  wb <- load_workbook excel_file_path ;;
  ws <- get_sheet_M wb sheet_name ;;
  save_as excel_file_path (mk_wb (apply_font (ws_name ws) font_name (wb_sheets wb))).

(** *** [get_files_in_path] *)

(** A directory: each entry is a name with [None] for a regular file and
    [Some t] for a subdirectory; the order is the order the OS lists them. *)
Inductive tree := TDir (entries : list (pystr * option tree)).

(** [s.endswith(suffix)] *)
Definition suffixb (suffix s : pystr) : bool := prefixb (rev suffix) (rev s).

Section Files.

(** [os.path.join], left to the platform. *)
Variable path_join : pystr -> pystr -> pystr.

(** [os.listdir(t)]: every entry, files and directories alike. *)
Definition listdir (t : tree) : list pystr :=
  match t with TDir es => map fst es end.

Definition entry_dirs (es : list (pystr * option tree)) : list pystr :=
  map fst (filter (fun e => match snd e with Some _ => true | None => false end) es).

Definition entry_files (es : list (pystr * option tree)) : list pystr :=
  map fst (filter (fun e => match snd e with Some _ => false | None => true end) es).

(** [os.walk(root)], top-down: [(root, dirnames, filenames)], then the walk of
    each subdirectory in turn. *)
Fixpoint walk (root : pystr) (t : tree) : list (pystr * list pystr * list pystr) :=
  match t with
  | TDir es =>
      (root, entry_dirs es, entry_files es) ::
      (fix go (es : list (pystr * option tree)) :=
         match es with
         | [] => []
         | (n, Some sub) :: es' => walk (path_join root n) sub ++ go es'
         | (_, None) :: es' => go es'
         end) es
  end.

Definition valid_extensions (xlsm_flg : bool) : list pystr :=
  if xlsm_flg then [py ".xlsx"; py ".xlsm"] else [py ".xlsx"].

Definition keep_file (xlsm_flg : bool) (f : pystr) : bool :=
  existsb (fun ext => suffixb ext f) (valid_extensions xlsm_flg) && negb (prefixb (py "~$") f).

(** [dir_at path] is the directory at [path], [None] when there is none
    (missing path, or a file).  [os.listdir] raises there, while [os.walk]
    yields nothing.  The result [None] stands for the raised error. *)
Definition get_files_in_path (dir_at : pystr -> option tree) (search_path : pystr)
    (sub_dir_flg xlsm_flg : bool) : option (list pystr) :=
  let search_method :=
    if sub_dir_flg then
      Some (match dir_at search_path with Some t => walk search_path t | None => [] end)
    else option_map (fun t => [(search_path, [], listdir t)]) (dir_at search_path) in
  option_map
    (flat_map (fun '(root, _, files) =>
                 map (path_join root) (filter (keep_file xlsm_flg) files)))
    search_method.

End Files.

(** ** The column reference the spec asks for

    For comparison with [cell_label]: the spreadsheet reference of a 1-based
    column index in bijective base 26 (A..Z, AA..ZZ, AAA..). *)
Fixpoint column_letters_go (fuel : nat) (n : N) : pystr :=
  match fuel with
  | O => []
  | S f => if (n =? 0)%N then []
           else column_letters_go f ((n - 1) / 26) ++ [(65 + (n - 1) mod 26)%N]
  end.

Definition column_letters (n : N) : pystr := column_letters_go (N.to_nat n) n.

(** ** Every cell and shape of a workbook

    The record [search_string_in_book] would give for each cell and each shape
    of each sheet, in its traversal order, and the condition that every
    column index is at most Excel's last column (16384, "XFD"). *)
Definition cell_record (sheet_name : pystr) (c : cell) : search_record :=
  (sheet_name, match cell_label c with Some l => l | None => [] end, cell_str c).

Definition shape_record (sheet_name : pystr) (s : shape) : search_record :=
  (sheet_name, shape_label (sp_name s), sp_text s).

Definition every_item_record (wb : workbook) : list search_record :=
  flat_map (fun sh => flat_map (map (cell_record (ws_name sh))) (ws_rows sh) ++
                      map (shape_record (ws_name sh)) (ws_shapes sh))
           (wb_sheets wb).

Definition item_count (wb : workbook) : nat :=
  list_sum (map (fun sh => list_sum (map (@List.length cell) (ws_rows sh)) +
                           List.length (ws_shapes sh))
                (wb_sheets wb)).

Definition columns_in_range (wb : workbook) : bool :=
  forallb (fun sh => forallb (forallb (fun c => (c_col c <=? 16384)%N)) (ws_rows sh))
          (wb_sheets wb).

(** ** Matches and replacements, as values

    [search_hit] is the test [search_string_in_book] applies to a text, and
    [literal_new] the new text [replace_string_in_book] computes in the literal
    modes. *)
Definition search_hit `{RE : RegexEngine} (pattern : option re_pat) (search_string : pystr)
    (exact_match use_regex : bool) (text : pystr) : bool :=
  if use_regex then
    match pattern with Some p => re_search p text | None => false end
  else if exact_match then str_eqb text search_string
  else infixb search_string text.

Definition literal_new (search_string replace_string : pystr) (exact_match : bool)
    (text : pystr) : pystr :=
  if exact_match then replace_string else py_replace text search_string replace_string.

(** The value [replace_string_in_book] is expected to write for a text:
    [pattern.sub] in regex mode, [literal_new] otherwise. *)
Definition expected_new `{RE : RegexEngine} (pattern : option re_pat)
    (search_string replace_string : pystr) (exact_match use_regex : bool)
    (text : pystr) : pystr :=
  if use_regex then
    match pattern with Some p => re_sub p replace_string text | None => text end
  else literal_new search_string replace_string exact_match text.

(** Whether some cell or shape text of the workbook is a match. *)
Definition hit_in_book `{RE : RegexEngine} (pattern : option re_pat)
    (search_string : pystr) (exact_match use_regex : bool) (wb : workbook) : bool :=
  existsb (fun sh =>
             existsb (existsb (fun c => search_hit pattern search_string exact_match
                                                   use_regex (cell_str c)))
                     (ws_rows sh) ||
             existsb (fun s => search_hit pattern search_string exact_match use_regex
                                          (sp_text s))
                     (ws_shapes sh))
          (wb_sheets wb).

(** The workbook has, in a sheet named [sheet_name], a cell labelled [loc]
    or a shape labelled [loc] whose text is [text]. *)
Definition item_at (wb : workbook) (sheet_name loc text : pystr) : Prop :=
  exists sh, In sh (wb_sheets wb) /\ ws_name sh = sheet_name /\
    ((exists row c, In row (ws_rows sh) /\ In c row /\ cell_label c = Some loc /\
                    cell_str c = text) \/
     (exists s, In s (ws_shapes sh) /\ shape_label (sp_name s) = loc /\ sp_text s = text)).

Definition found_record `{RE : RegexEngine} (pattern : option re_pat)
    (search_string : pystr) (exact_match use_regex : bool) (wb : workbook)
    (r : search_record) : Prop :=
  let '(sheet_name, loc, text) := r in
  search_hit pattern search_string exact_match use_regex text = true /\
  item_at wb sheet_name loc text.

Definition replaced_record `{RE : RegexEngine} (pattern : option re_pat)
    (search_string replace_string : pystr) (exact_match use_regex : bool)
    (wb : workbook) (r : replace_record) : Prop :=
  let '(sheet_name, loc, old, new) := r in
  search_hit pattern search_string exact_match use_regex old = true /\
  new = expected_new pattern search_string replace_string exact_match use_regex old /\
  new <> old /\ item_at wb sheet_name loc old.

(** ** A sample workbook *)

Definition book_path : pystr := py "C:\book.xlsx".

Definition sample_sheet : worksheet :=
  mk_sheet (py "Sheet1")
    [[mk_cell 1 1 (Some (PStr (py "abcxyz"))) (py "Calibri");
      mk_cell 1 2 (Some (PStr (py "abc"))) (py "Calibri")];
     [mk_cell 2 1 None (py "Calibri");
      mk_cell 2 2 (Some (PStr (py "foobar"))) (py "Calibri")]]
    [mk_shape (py "TextBox 1") (py "note")]
    None None.

Definition sample_book : workbook :=
  mk_wb [sample_sheet; mk_sheet (py "Data") [] [] None None].

Definition sample_world : world :=
  mk_world (fun q => if str_eqb q book_path then Some sample_book else None) [].

(** ** Properties *)

Lemma str_eqb_eq a b : str_eqb a b = true <-> a = b.
Proof.
  revert b; induction a as [|x a IH]; intros [|y b]; simpl;
    try (split; congruence).
  rewrite andb_true_iff, N.eqb_eq, IH. split; [intros [-> ->]; reflexivity|].
  intros H; injection H; auto.
Qed.

Lemma str_eqb_refl a : str_eqb a a = true.
Proof. apply str_eqb_eq; reflexivity. Qed.

Definition newline_world : world :=
  mk_world (fun q => if str_eqb q book_path then
                       Some (mk_wb [mk_sheet (py "Sheet1")
                                      [[mk_cell 1 1 (Some (PStr (py "abc" ++ [10%N])))
                                                (py "Calibri")]] [] None None])
                     else None) [].

(** C1 (exact match with regex): the search string is passed through
    [re.escape] before anchoring, so the metacharacter [.] of "a.c" no longer
    matches any character: searching "a.c" with both flags finds nothing in a
    sheet holding "abc", although the anchored pattern "^a.c$" matches "abc";
    and "^...$" with [search] also accepts a text with one trailing newline. *)
Theorem C1_exact_regex_escapes_search_string :
  fst (search_string_in_book book_path (py "a.c") true true sample_world) = Ok [] /\
  (match re_compile (py "^a.c$") with
   | Some p => re_search p (py "abc")
   | None => false
   end) = true /\
  fst (search_string_in_book book_path (py "abc") true true newline_world)
  = Ok [(py "Sheet1", py "A1", py "abc" ++ [10%N])].
Proof. vm_compute. repeat split; reflexivity. Qed.

(** *** Python's order on strings *)

Definition str_lt (a b : pystr) : Prop := str_ltb a b = true.

Lemma str_ltb_irrefl a : str_ltb a a = false.
Proof.
  induction a as [|x a IH]; simpl; auto.
  rewrite N.ltb_irrefl, N.eqb_refl, IH. reflexivity.
Qed.

Lemma str_ltb_trans a b c : str_lt a b -> str_lt b c -> str_lt a c.
Proof.
  unfold str_lt; revert b c.
  induction a as [|x a IH]; intros [|y b] [|z c]; simpl; auto; try discriminate.
  rewrite !orb_true_iff, !andb_true_iff, !N.ltb_lt, !N.eqb_eq.
  intros [Hxy|[Hxy Hab]] [Hyz|[Hyz Hbc]]; subst.
  - left; lia.
  - left; lia.
  - left; lia.
  - right; split; [reflexivity | exact (IH _ _ Hab Hbc)].
Qed.

Lemma str_ltb_total a b : a <> b -> str_lt a b \/ str_lt b a.
Proof.
  unfold str_lt; revert b.
  induction a as [|x a IH]; intros [|y b] Hne; simpl; auto.
  rewrite !orb_true_iff, !andb_true_iff, !N.ltb_lt, !N.eqb_eq.
  destruct (N.lt_trichotomy x y) as [H|[H|H]]; [left; left; lia| |right; left; lia].
  subst. assert (a <> b) as Hab by congruence.
  destruct (IH b Hab); [left|right]; right; auto.
Qed.

Lemma str_ltb_asym a b : str_lt a b -> ~ str_lt b a.
Proof.
  intros H1 H2. pose proof (str_ltb_trans H1 H2) as H.
  unfold str_lt in H. rewrite str_ltb_irrefl in H. discriminate.
Qed.

(** *** Insertion sort *)

Lemma insert_sorted_perm x l : Permutation (x :: l) (insert_sorted x l).
Proof.
  induction l as [|y l IH]; simpl; auto.
  destruct (str_ltb y x); auto.
  eapply perm_trans; [apply perm_swap|]. constructor. exact IH.
Qed.

Lemma sort_names_perm l : Permutation l (sort_names l).
Proof.
  induction l as [|x l IH]; simpl; auto.
  eapply perm_trans; [constructor; exact IH|]. apply insert_sorted_perm.
Qed.

Lemma insert_sorted_strict x l :
  StronglySorted str_lt l -> ~ In x l -> StronglySorted str_lt (insert_sorted x l).
Proof.
  induction l as [|y l IH]; intros Hs Hin; simpl.
  - repeat constructor.
  - apply StronglySorted_inv in Hs as [Hs Hy].
    case_eq (str_ltb y x); intros Hyx.
    + constructor.
      * apply IH; auto. intros H; apply Hin; right; exact H.
      * apply (Permutation_Forall (insert_sorted_perm x l)).
        constructor; [exact Hyx | exact Hy].
    + assert (x <> y) as Hne by (intros ->; apply Hin; left; reflexivity).
      assert (str_lt x y) as Hxy.
      { destruct (str_ltb_total Hne) as [H|H]; auto.
        unfold str_lt in H; congruence. }
      constructor; [constructor; auto|].
      constructor; [exact Hxy|].
      eapply Forall_impl; [|exact Hy]. intros z Hz. eapply str_ltb_trans; eauto.
Qed.

Lemma sort_names_strict l : NoDup l -> StronglySorted str_lt (sort_names l).
Proof.
  induction l as [|x l IH]; intros Hnd; simpl; [constructor|].
  apply NoDup_cons_iff in Hnd as [Hx Hnd].
  apply insert_sorted_strict; auto.
  intros H; apply Hx. apply (Permutation_in _ (Permutation_sym (sort_names_perm l)) H).
Qed.

Lemma StronglySorted_snoc {A} (R : A -> A -> Prop) l x :
  StronglySorted R l -> Forall (fun y => R y x) l -> StronglySorted R (l ++ [x]).
Proof.
  induction l as [|y l IH]; intros Hs Hf; simpl.
  - repeat constructor.
  - apply StronglySorted_inv in Hs as [Hs Hy]. inversion Hf; subst.
    constructor; [apply IH; auto|].
    apply Forall_app; split; auto.
Qed.

Lemma StronglySorted_rev {A} (R : A -> A -> Prop) l :
  StronglySorted R l -> StronglySorted (fun a b => R b a) (rev l).
Proof.
  induction l as [|y l IH]; intros Hs; simpl; [constructor|].
  apply StronglySorted_inv in Hs as [Hs Hy].
  apply StronglySorted_snoc; auto.
  apply Forall_forall; intros z Hz. apply in_rev in Hz.
  exact (proj1 (Forall_forall _ _) Hy z Hz).
Qed.

(** C5 (counterexample): "ASC" is neither 'asc' nor 'desc', yet [sort_sheet]
    lower-cases it and sorts instead of raising [ValueError]. *)
Lemma C5_upper_case_order_accepted :
  py "ASC" <> py "asc" /\ py "ASC" <> py "desc" /\
  fst (sort_sheet book_path (py "ASC") sample_world) = Ok [py "Data"; py "Sheet1"].
Proof. split; [discriminate | split; [discriminate | reflexivity]]. Qed.

(** C5 (amended): [sort_sheet] raises [ValueError], before opening the
    workbook, exactly for the order values whose lower-case form is neither
    'asc' nor 'desc'; for 'asc' (resp. 'desc') in any letter case it returns a
    permutation of the workbook's sheet names (distinct, as in any workbook) in
    strictly ascending (resp. descending) order of Python's string order. *)
Theorem C5_sort_sheet_spec (excel_file_path order : pystr) (w : world) :
  (existsb (str_eqb (py_lower order)) [py "asc"; py "desc"] = false ->
   sort_sheet excel_file_path order w = (Raise ValueError, w)) /\
  (forall wb, w_files w excel_file_path = Some wb -> NoDup (sheetnames wb) ->
   (py_lower order = py "asc" ->
    exists l, fst (sort_sheet excel_file_path order w) = Ok l /\
              Permutation (sheetnames wb) l /\ StronglySorted str_lt l) /\
   (py_lower order = py "desc" ->
    exists l, fst (sort_sheet excel_file_path order w) = Ok l /\
              Permutation (sheetnames wb) l /\
              StronglySorted (fun a b => str_lt b a) l)).
Proof.
  split.
  - intros H. unfold sort_sheet. rewrite H. reflexivity.
  - intros wb Hwb Hnd. split; intros Ho; unfold sort_sheet; rewrite Ho;
      simpl; unfold bind, load_workbook; rewrite Hwb; simpl.
    + eexists; split; [reflexivity|]. split.
      * apply sort_names_perm.
      * apply sort_names_strict; exact Hnd.
    + eexists; split; [reflexivity|]. split.
      * eapply perm_trans; [apply sort_names_perm | apply Permutation_rev].
      * apply StronglySorted_rev, sort_names_strict; exact Hnd.
Qed.

Lemma C5_sort_sheet_spec_witness :
  sort_sheet book_path (py "x") sample_world = (Raise ValueError, sample_world) /\
  exists l, fst (sort_sheet book_path (py "Desc") sample_world) = Ok l /\
            Permutation (sheetnames sample_book) l /\
            StronglySorted (fun a b => str_lt b a) l.
Proof.
  split.
  - apply (proj1 (C5_sort_sheet_spec book_path (py "x") sample_world)).
    reflexivity.
  - apply (proj2 (proj2 (C5_sort_sheet_spec book_path (py "Desc") sample_world)
                   sample_book eq_refl (ltac:(vm_compute; repeat constructor; simpl;
                                              intuition discriminate)))).
    reflexivity.
Defined.

(** *** Column labels *)

Lemma column_letters_small n :
  (1 <= n <= 26)%N -> column_letters n = [(64 + n)%N].
Proof.
  intros Hn. unfold column_letters.
  destruct (N.to_nat n) as [|f] eqn:Hf; [lia|]. cbn [column_letters_go].
  replace (n =? 0)%N with false by (symmetry; apply N.eqb_neq; lia).
  rewrite (N.div_small (n - 1) 26) by lia.
  rewrite (N.mod_small (n - 1) 26) by lia.
  replace (column_letters_go f 0) with (@nil N) by (destruct f; reflexivity).
  cbn [app]. f_equal. lia.
Qed.

Lemma column_letters_long n :
  (26 < n)%N -> 2 <= List.length (column_letters n).
Proof.
  intros Hn. unfold column_letters.
  destruct (N.to_nat n) as [|f] eqn:Hf; [lia|]. cbn [column_letters_go].
  replace (n =? 0)%N with false by (symmetry; apply N.eqb_neq; lia).
  assert (Hq : (1 <= (n - 1) / 26)%N).
  { apply N.div_le_lower_bound; lia. }
  assert (Hq' : ((n - 1) / 26 <= n - 1)%N).
  { apply N.Div0.div_le_upper_bound; lia. }
  destruct f as [|f]; [lia|]. cbn [column_letters_go].
  replace (((n - 1) / 26) =? 0)%N with false by (symmetry; apply N.eqb_neq; lia).
  rewrite !length_app; simpl. lia.
Qed.

(** C6: the location label of a cell is [chr(column + 64)] followed by the
    row number.  For columns 1 to 26 this is the column's letter A..Z; for
    every column beyond 26, up to Excel's last column 16384, it is a single
    character outside A..Z, where the column reference has two letters or
    more, so the label is not the cell's reference. *)
Theorem C6_column_label_single_char (c : cell) :
  ((1 <= c_col c <= 26)%N ->
   cell_label c = Some ((64 + c_col c)%N :: py_str_N (c_row c)) /\
   cell_label c = Some (column_letters (c_col c) ++ py_str_N (c_row c))) /\
  ((26 < c_col c <= 16384)%N ->
   exists ch, cell_label c = Some (ch :: py_str_N (c_row c)) /\
              ch = (c_col c + 64)%N /\ ~ (65 <= ch <= 90)%N /\
              2 <= List.length (column_letters (c_col c)) /\
              cell_label c <> Some (column_letters (c_col c) ++ py_str_N (c_row c))).
Proof.
  unfold cell_label, py_chr. split; intros Hc.
  - replace (c_col c + 64 <=? 1114111)%N with true by (symmetry; apply N.leb_le; lia).
    rewrite column_letters_small by lia. cbn [option_map app].
    rewrite N.add_comm. split; reflexivity.
  - replace (c_col c + 64 <=? 1114111)%N with true by (symmetry; apply N.leb_le; lia).
    exists (c_col c + 64)%N. cbn [option_map].
    pose proof (column_letters_long (n := c_col c) ltac:(lia)) as Hl.
    repeat split; try lia.
    intros H. injection H as H.
    apply (f_equal (@List.length N)) in H. rewrite length_app in H. cbn [List.length] in H. lia.
Qed.

Lemma C6_column_label_single_char_witness :
  cell_label (mk_cell 3 2 None []) = Some (column_letters 2 ++ py "3") /\
  exists ch, cell_label (mk_cell 1 27 None []) = Some (ch :: py "1") /\
             ch = 91%N /\ ~ (65 <= ch <= 90)%N /\ 2 <= List.length (column_letters 27) /\
             cell_label (mk_cell 1 27 None []) <> Some (column_letters 27 ++ py "1").
Proof.
  split.
  - apply (proj1 (C6_column_label_single_char (mk_cell 3 2 None [])) ltac:(simpl; lia)).
  - apply (proj2 (C6_column_label_single_char (mk_cell 1 27 None [])) ltac:(simpl; lia)).
Defined.

(** *** Grid sizing *)


(** Pixel sizes from 0 to 545 give a row height and a column width in the
    ranges Excel accepts (546 * 0.75 = 409.5 is the first row height past 409). *)
Lemma grid_sizes_in_range (z : Z) :
  (0 <= z <= 545)%Z ->
  row_height_ok (float_of_int z * 0.75)%float = true /\
  column_width_ok (float_of_int z * 0.14)%float = true.
Proof.
  intros Hz.
  assert (Hall : forallb (fun n => row_height_ok (float_of_int (Z.of_nat n) * 0.75)%float &&
                                   column_width_ok (float_of_int (Z.of_nat n) * 0.14)%float)
                         (seq 0 546) = true) by (vm_compute; reflexivity).
  rewrite forallb_forall in Hall.
  specialize (Hall (Z.to_nat z)). rewrite Z2Nat.id in Hall by lia.
  apply andb_true_iff, Hall, in_seq. lia.
Qed.




(** *** Failures to open *)

(** C2: when the workbook cannot be opened, [replace_string_in_book] prints
    the failure and returns [[]], as it does for a workbook without a match,
    and [set_grid_size] prints the failure and returns [[]]; the openpyxl
    operations raise the open failure.  [set_grid_size] on an openable
    workbook returns [None], so its two outcomes stay distinguishable. *)
Theorem C2_open_failure_results `{RE : RegexEngine} (w : world)
    (excel_file_path search_string replace_string sheet_name font_name csv_file_path
     order : pystr) (exact_match use_regex : bool) (pixel_size : Z) :
  w_files w excel_file_path = None ->
  replace_string_in_book excel_file_path search_string replace_string exact_match
    use_regex w
  = (Ok [], mk_world (w_files w) (w_log w ++ [EPrint; EDispatch; EPrint])) /\
  set_grid_size excel_file_path sheet_name pixel_size w
  = (Ok RetEmptyList, mk_world (w_files w) (w_log w ++ [EDispatch; EPrint])) /\
  fst (get_sheets_name excel_file_path w) = Raise OpenError /\
  fst (convert_csv excel_file_path sheet_name csv_file_path w) = Raise OpenError /\
  fst (change_font excel_file_path sheet_name font_name w) = Raise OpenError /\
  (existsb (str_eqb (py_lower order)) [py "asc"; py "desc"] = true ->
   fst (sort_sheet excel_file_path order w) = Raise OpenError) /\
  fst (replace_string_in_book book_path (py "zzz") (py "y") false false sample_world)
  = Ok [] /\
  fst (set_grid_size book_path (py "Sheet1") 20 sample_world) = Ok RetNone.
Proof.
  intros Hnone.
  split; [|split; [|split; [|split; [|split; [|split; [|split]]]]]];
    [| | | | | | vm_compute; reflexivity | vm_compute; reflexivity].
  all: unfold replace_string_in_book, set_grid_size, get_sheets_name, convert_csv,
    change_font, sort_sheet, load_workbook, com_open, bind, catch, emit, ret;
    cbn [w_files w_log fst snd]; rewrite ?Hnone; cbn [fst snd w_files w_log];
    rewrite <- ?app_assoc; cbn [app]; try reflexivity.
  intros Ho. rewrite Ho. cbn [negb]. rewrite Hnone. reflexivity.
Qed.

Lemma C2_open_failure_results_witness :
  replace_string_in_book (py "missing.xlsx") (py "foo") (py "bar") false false
    sample_world
  = (Ok [], mk_world (w_files sample_world) [EPrint; EDispatch; EPrint]) /\
  set_grid_size (py "missing.xlsx") (py "Sheet1") 20 sample_world
  = (Ok RetEmptyList, mk_world (w_files sample_world) [EDispatch; EPrint]) /\
  fst (get_sheets_name (py "missing.xlsx") sample_world) = Raise OpenError /\
  fst (convert_csv (py "missing.xlsx") (py "Sheet1") (py "out.csv") sample_world)
  = Raise OpenError /\
  fst (change_font (py "missing.xlsx") (py "Sheet1") (py "Meiryo UI") sample_world)
  = Raise OpenError /\
  (existsb (str_eqb (py_lower (py "asc"))) [py "asc"; py "desc"] = true ->
   fst (sort_sheet (py "missing.xlsx") (py "asc") sample_world) = Raise OpenError) /\
  fst (replace_string_in_book book_path (py "zzz") (py "y") false false sample_world)
  = Ok [] /\
  fst (set_grid_size book_path (py "Sheet1") 20 sample_world) = Ok RetNone.
Proof.
  exact (C2_open_failure_results sample_world (py "missing.xlsx") (py "foo") (py "bar")
           (py "Sheet1") (py "Meiryo UI") (py "out.csv") (py "asc") false false 20
           eq_refl).
Defined.

(** *** A sheet name that is not in the workbook *)

Lemma get_sheet_absent name l :
  ~ In name (map ws_name l) -> get_sheet name l = None.
Proof.
  induction l as [|s l IH]; intros Hin; simpl; auto.
  destruct (str_eqb (ws_name s) name) eqn:E.
  - apply str_eqb_eq in E. exfalso; apply Hin; left; exact E.
  - apply IH. intros H; apply Hin; right; exact H.
Qed.

Lemma existsb_str_eqb_absent x l : ~ In x l -> existsb (str_eqb x) l = false.
Proof.
  induction l as [|y l IH]; intros Hin; simpl; auto.
  destruct (str_eqb x y) eqn:E.
  - apply str_eqb_eq in E. exfalso; apply Hin; left; symmetry; exact E.
  - apply IH. intros H; apply Hin; right; exact H.
Qed.

(** C10: for a sheet name absent from an openable workbook, [change_font]
    raises [KeyError] from the sheet lookup [wb[sheet_name]] right after
    loading, with the files untouched and nothing saved; [convert_csv] raises
    [ValueError] from its explicit check, also without writing anything. *)
Theorem C10_change_font_missing_sheet (w : world)
    (excel_file_path sheet_name font_name csv_file_path : pystr) (wb : workbook) :
  w_files w excel_file_path = Some wb ->
  ~ In sheet_name (sheetnames wb) ->
  change_font excel_file_path sheet_name font_name w
  = (Raise KeyError, mk_world (w_files w) (w_log w ++ [ELoad excel_file_path])) /\
  convert_csv excel_file_path sheet_name csv_file_path w
  = (Raise ValueError, mk_world (w_files w) (w_log w ++ [ELoad excel_file_path])).
Proof.
  intros Hwb Hin.
  unfold change_font, convert_csv, load_workbook, bind, get_sheet_M.
  rewrite Hwb. cbn [w_files w_log].
  rewrite get_sheet_absent by exact Hin. rewrite existsb_str_eqb_absent by exact Hin.
  split; reflexivity.
Qed.

Lemma C10_change_font_missing_sheet_witness :
  change_font book_path (py "Nope") (py "Meiryo UI") sample_world
  = (Raise KeyError, mk_world (w_files sample_world) [ELoad book_path]) /\
  convert_csv book_path (py "Nope") (py "out.csv") sample_world
  = (Raise ValueError, mk_world (w_files sample_world) [ELoad book_path]).
Proof.
  apply (C10_change_font_missing_sheet sample_world book_path (py "Nope")
           (py "Meiryo UI") (py "out.csv") eq_refl).
  vm_compute. intuition discriminate.
Defined.

(** *** Computations that leave the world as it is *)

Definition inert {A} (m : M A) : Prop := forall w, snd (m w) = w.

Lemma inert_ret {A} (a : A) : inert (ret a).
Proof. intros w; reflexivity. Qed.

Lemma inert_raise {A} (e : exn) : inert (A := A) (raise e).
Proof. intros w; reflexivity. Qed.

Lemma inert_bind {A B} (m : M A) (k : A -> M B) :
  inert m -> (forall a, inert (k a)) -> inert (bind m k).
Proof.
  intros Hm Hk w. unfold bind. specialize (Hm w).
  destruct (m w) as [[a|e] w'] eqn:E; simpl in Hm; subst w'; [apply Hk|reflexivity].
Qed.

Lemma inert_foldM {A B} (f : B -> A -> M B) (l : list A) (b : B) :
  (forall b a, inert (f b a)) -> inert (foldM f b l).
Proof.
  intros Hf; revert b; induction l as [|x l IH]; intros b; simpl.
  - apply inert_ret.
  - apply inert_bind; auto.
Qed.

Create HintDb inert.
#[export] Hint Resolve inert_ret inert_raise : inert.

Ltac solve_inert :=
  repeat match goal with
  | |- inert (bind _ _) => apply inert_bind; [|intro]
  | |- inert (foldM _ _ _) => apply inert_foldM; intros
  | |- inert (if ?b then _ else _) => destruct b
  | |- inert (match ?x with _ => _ end) => destruct x
  | |- inert _ => solve [eauto with inert]
  end.

Section Inert.

Context {RE : RegexEngine}.

Lemma inert_cell_label_M c : inert (cell_label_M c).
Proof. unfold cell_label_M. solve_inert. Qed.

Lemma inert_pattern_search pattern text : inert (pattern_search pattern text).
Proof. unfold pattern_search. solve_inert. Qed.

Lemma inert_make_pattern s e r : inert (make_pattern s e r).
Proof. unfold make_pattern, compile. solve_inert. Qed.

End Inert.

#[export] Hint Resolve inert_cell_label_M inert_pattern_search inert_make_pattern : inert.

Section InertSearch.

Context {RE : RegexEngine}.

Lemma inert_search_cell pattern s e r n results c :
  inert (search_cell pattern s e r n results c).
Proof. unfold search_cell. solve_inert. Qed.

Lemma inert_search_shape pattern s e r n results sh :
  inert (search_shape pattern s e r n results sh).
Proof. unfold search_shape. solve_inert. Qed.

Lemma inert_search_sheet pattern s e r results sheet :
  inert (search_sheet pattern s e r results sheet).
Proof.
  unfold search_sheet. apply inert_bind.
  - apply inert_foldM; intros. apply inert_foldM; intros. apply inert_search_cell.
  - intros. apply inert_foldM; intros. apply inert_search_shape.
Qed.

End InertSearch.

(** C8: [search_string_in_book] writes nothing: no file changes on any input,
    and its trace holds no cell, shape, save or file-write effect.  When it
    returns, the trace is exactly: dispatch of the application, read-only open,
    close without saving, quit; when it raises, the trace stops after the
    dispatch or the open (no close, no quit). *)
Theorem C8_search_read_only `{RE : RegexEngine} (w : world)
    (excel_file_path search_string : pystr) (exact_match use_regex : bool) :
  let r := search_string_in_book excel_file_path search_string exact_match use_regex w in
  w_files (snd r) = w_files w /\
  (forall results, fst r = Ok results ->
   w_log (snd r) = w_log w ++ [EDispatch; EOpen excel_file_path true; EClose false; EQuit]) /\
  (forall e, fst r = Raise e ->
   w_log (snd r) = w_log w ++ [EDispatch] \/
   w_log (snd r) = w_log w ++ [EDispatch; EOpen excel_file_path true]).
Proof.
  intros r. subst r.
  destruct (search_string_in_book excel_file_path search_string exact_match use_regex w)
    as [res w'] eqn:E.
  cbn [fst snd].
  unfold search_string_in_book, bind, emit, com_open in E. cbn [w_files w_log] in E.
  destruct (w_files w excel_file_path) as [wb|] eqn:Hwb.
  2:{ injection E as <- <-. cbn [w_files w_log]. split; [reflexivity|].
      split; [discriminate|]. intros; left; reflexivity. }
  set (w2 := mk_world (w_files w) ((w_log w ++ [EDispatch]) ++ [EOpen excel_file_path true]))
    in E.
  pose proof (inert_make_pattern search_string exact_match use_regex w2) as Hp.
  destruct (make_pattern search_string exact_match use_regex w2) as [[pattern|e] w3];
    cbn [snd] in Hp; subst w3.
  2:{ injection E as <- <-. split; [reflexivity|].
      split; [discriminate|]. intros; right. unfold w2. cbn [w_log].
      rewrite <- app_assoc. reflexivity. }
  pose proof (inert_foldM (search_sheet pattern search_string exact_match use_regex)
                (wb_sheets wb) [] (fun b a => inert_search_sheet _ _ _ _ _ _) w2) as Hf.
  destruct (foldM (search_sheet pattern search_string exact_match use_regex) []
                  (wb_sheets wb) w2) as [[results|e] w3]; cbn [snd] in Hf; subst w3.
  2:{ injection E as <- <-. split; [reflexivity|].
      split; [discriminate|]. intros; right. unfold w2. cbn [w_log].
      rewrite <- app_assoc. reflexivity. }
  unfold ret in E. cbn [w_files w_log] in E. injection E as <- <-.
  unfold w2. cbn [w_files w_log].
  split; [reflexivity|]. split; [|discriminate].
  intros ? _. rewrite <- !app_assoc. reflexivity.
Qed.

Lemma C8_search_read_only_witness :
  let r := search_string_in_book book_path (py "abc") false false sample_world in
  w_files (snd r) = w_files sample_world /\
  (forall results, fst r = Ok results ->
   w_log (snd r) = w_log sample_world ++
                     [EDispatch; EOpen book_path true; EClose false; EQuit]) /\
  (forall e, fst r = Raise e ->
   w_log (snd r) = w_log sample_world ++ [EDispatch] \/
   w_log (snd r) = w_log sample_world ++ [EDispatch; EOpen book_path true]).
Proof.
  exact (C8_search_read_only sample_world book_path (py "abc") false false).
Defined.

(** *** Replacing *)

(** C3: every cell and every shape text visited by [replace_string_in_book] is
    written back, and a (sheet, location, old, new) record appended, exactly
    when the computed new value differs from the old one; otherwise the cell
    or shape, the records and the world stay as they are.  Replacing "foo" by
    "bar" in the sample workbook rewrites the cell "foobar" (B2) to "barbar",
    records it, and leaves the other cells alone. *)
Theorem C3_replace_writes_only_changes `{RE : RegexEngine} :
  (forall pattern search_string replace_string exact_match use_regex sheet_name
          results c w new_value w1,
   compute_new pattern search_string replace_string exact_match use_regex (cell_str c) w
   = (Ok new_value, w1) ->
   replace_cell pattern search_string replace_string exact_match use_regex sheet_name
     results c w
   = if str_eqb new_value (cell_str c) then (Ok (c, results), w1)
     else match cell_label c with
          | Some loc =>
              (Ok (set_value c (PStr new_value),
                   results ++ [(sheet_name, loc, cell_str c, new_value)]),
               mk_world (w_files w1)
                 (w_log w1 ++ [ESetCell sheet_name (c_row c) (c_col c) new_value]))
          | None => (Raise ValueError, w1)
          end) /\
  (forall pattern search_string replace_string exact_match use_regex sheet_name
          results s w new_text w1,
   compute_new pattern search_string replace_string exact_match use_regex (sp_text s) w
   = (Ok new_text, w1) ->
   replace_shape pattern search_string replace_string exact_match use_regex sheet_name
     results s w
   = if str_eqb new_text (sp_text s) then (Ok (s, results), w1)
     else (Ok (mk_shape (sp_name s) new_text,
               results ++ [(sheet_name, shape_label (sp_name s), sp_text s, new_text)]),
           mk_world (w_files w1)
             (w_log w1 ++ [ESetShape sheet_name (sp_name s) new_text]))) /\
  (let r := replace_string_in_book book_path (py "foo") (py "bar") false false
              sample_world in
   fst r = Ok [(py "Sheet1", py "B2", py "foobar", py "barbar")] /\
   option_map (fun wb => map (fun sh => map (map cell_str) (ws_rows sh)) (wb_sheets wb))
     (w_files (snd r) book_path)
   = Some [[[py "abcxyz"; py "abc"]; [[]; py "barbar"]]; []] /\
   w_log (snd r) = [EPrint; EDispatch; EOpen book_path false;
                    ESetCell (py "Sheet1") 2 2 (py "barbar"); ESave book_path;
                    EClose false; EQuit]).
Proof.
  split; [|split].
  - intros pattern ss rs em ur sn results c w nv w1 H.
    unfold replace_cell, bind. rewrite H.
    destruct (str_eqb nv (cell_str c)); cbn [negb]; [reflexivity|].
    unfold cell_label_M. destruct (cell_label c); reflexivity.
  - intros pattern ss rs em ur sn results s w nv w1 H.
    unfold replace_shape, bind. rewrite H.
    destruct (str_eqb nv (sp_text s)); reflexivity.
  - vm_compute. repeat split.
Qed.

Lemma C3_replace_writes_only_changes_witness :
  replace_cell None (py "foo") (py "bar") false false (py "Sheet1") []
    (mk_cell 2 2 (Some (PStr (py "foobar"))) (py "Calibri")) sample_world
  = (Ok (mk_cell 2 2 (Some (PStr (py "barbar"))) (py "Calibri"),
         [(py "Sheet1", py "B2", py "foobar", py "barbar")]),
     mk_world (w_files sample_world) [ESetCell (py "Sheet1") 2 2 (py "barbar")]).
Proof.
  exact (proj1 (C3_replace_writes_only_changes (RE := fragment_engine))
           None (py "foo") (py "bar") false false (py "Sheet1") []
           (mk_cell 2 2 (Some (PStr (py "foobar"))) (py "Calibri")) sample_world
           (py "barbar") sample_world eq_refl).
Defined.

(** *** Literal search *)

(** C4: with regex off, a cell is reported when the search string occurs in
    its text (exact match off) or equals it (exact match on), the text being
    [str] of the value and "" for an absent value.  In the sample sheet,
    "abc" without exact match finds "abcxyz" (A1) and "abc" (B1); with exact
    match it finds "abc" only. *)
Theorem C4_literal_search `{RE : RegexEngine} :
  (forall pattern search_string exact_match sheet_name results c w loc,
   cell_label c = Some loc ->
   search_cell pattern search_string exact_match false sheet_name results c w
   = (Ok (if (if exact_match then str_eqb (cell_str c) search_string
              else infixb search_string (cell_str c))
          then results ++ [(sheet_name, loc, cell_str c)] else results), w)) /\
  (forall c, c_value c = None -> cell_str c = []) /\
  (forall c v, c_value c = Some v -> cell_str c = py_str_val v) /\
  fst (search_string_in_book book_path (py "abc") false false sample_world)
  = Ok [(py "Sheet1", py "A1", py "abcxyz"); (py "Sheet1", py "B1", py "abc")] /\
  fst (search_string_in_book book_path (py "abc") true false sample_world)
  = Ok [(py "Sheet1", py "B1", py "abc")].
Proof.
  split; [|split; [|split; [|split]]].
  - intros pattern ss em sn results c w loc Hl.
    unfold search_cell, cell_label_M. rewrite Hl.
    destruct em; [destruct (str_eqb (cell_str c) ss)|destruct (infixb ss (cell_str c))];
      reflexivity.
  - intros c H. unfold cell_str. rewrite H. reflexivity.
  - intros c v H. unfold cell_str. rewrite H. reflexivity.
  - vm_compute. reflexivity.
  - vm_compute. reflexivity.
Qed.

Lemma C4_literal_search_witness :
  search_cell None (py "abc") true false (py "Sheet1") []
    (mk_cell 1 1 (Some (PStr (py "abcxyz"))) (py "Calibri")) sample_world
  = (Ok [], sample_world) /\
  cell_str (mk_cell 2 1 None (py "Calibri")) = [].
Proof.
  split.
  - exact (proj1 (C4_literal_search (RE := fragment_engine)) None (py "abc") true
             (py "Sheet1") [] (mk_cell 1 1 (Some (PStr (py "abcxyz"))) (py "Calibri"))
             sample_world (py "A1") eq_refl).
  - exact (proj1 (proj2 (C4_literal_search (RE := fragment_engine)))
             (mk_cell 2 1 None (py "Calibri")) eq_refl).
Defined.

(** *** Searching for the empty string *)

Lemma foldM_append {A B} (f : list B -> A -> M (list B)) (g : A -> list B)
    (l : list A) (b : list B) (w : world) :
  (forall b a, In a l -> f b a w = (Ok (b ++ g a), w)) ->
  foldM f b l w = (Ok (b ++ flat_map g l), w).
Proof.
  revert b; induction l as [|x l IH]; intros b Hf; simpl.
  - rewrite app_nil_r. reflexivity.
  - unfold bind. rewrite (Hf b x (or_introl eq_refl)).
    rewrite IH by (intros b' a Ha; apply Hf; right; exact Ha).
    rewrite app_assoc. reflexivity.
Qed.

Lemma length_flat_map_map {A B} (f : A -> B) (ll : list (list A)) :
  List.length (flat_map (map f) ll) = list_sum (map (@List.length A) ll).
Proof.
  induction ll as [|l ll IH]; [reflexivity|].
  cbn [flat_map map list_sum]. rewrite length_app, length_map, IH. reflexivity.
Qed.

Lemma flat_map_singleton {A B} (f : A -> B) (l : list A) :
  flat_map (fun a => [f a]) l = map f l.
Proof. induction l; simpl; congruence. Qed.

Lemma infixb_nil s : infixb [] s = true.
Proof. destruct s; reflexivity. Qed.

Lemma cell_label_in_range c :
  (c_col c <= 16384)%N -> cell_label c = Some ((c_col c + 64)%N :: py_str_N (c_row c)).
Proof.
  intros H. unfold cell_label, py_chr.
  replace (c_col c + 64 <=? 1114111)%N with true by (symmetry; apply N.leb_le; lia).
  reflexivity.
Qed.

Section EmptySearch.

Context {RE : RegexEngine}.

Lemma search_sheet_empty (sh : worksheet) results w :
  forallb (forallb (fun c => (c_col c <=? 16384)%N)) (ws_rows sh) = true ->
  search_sheet None [] false false results sh w
  = (Ok (results ++ (flat_map (map (cell_record (ws_name sh))) (ws_rows sh) ++
                     map (shape_record (ws_name sh)) (ws_shapes sh))), w).
Proof.
  intros Hr. unfold search_sheet, bind.
  rewrite (foldM_append _ (map (cell_record (ws_name sh)))).
  - rewrite (foldM_append _ (fun s => [shape_record (ws_name sh) s])).
    + rewrite flat_map_singleton, app_assoc. reflexivity.
    + intros b s _. unfold search_shape. rewrite infixb_nil. reflexivity.
  - intros b row Hrow.
    rewrite (foldM_append _ (fun c => [cell_record (ws_name sh) c])).
    + rewrite flat_map_singleton. reflexivity.
    + intros b' c Hc.
      rewrite forallb_forall in Hr. specialize (Hr row Hrow).
      rewrite forallb_forall in Hr. specialize (Hr c Hc).
      apply N.leb_le in Hr.
      unfold search_cell, cell_label_M, cell_record.
      rewrite cell_label_in_range by exact Hr. rewrite infixb_nil. reflexivity.
Qed.

End EmptySearch.

(** C9: searching for the empty string with regex and exact match off
    reports every cell of every sheet's used range (absent values as "") and
    every shape, one record each, in traversal order: the result is
    [every_item_record], whose length is the number of cells and shapes. *)
Theorem C9_empty_search_matches_all `{RE : RegexEngine} (w : world)
    (excel_file_path : pystr) (wb : workbook) :
  w_files w excel_file_path = Some wb ->
  columns_in_range wb = true ->
  fst (search_string_in_book excel_file_path [] false false w) = Ok (every_item_record wb) /\
  List.length (every_item_record wb) = item_count wb.
Proof.
  intros Hwb Hcols. split.
  - unfold search_string_in_book, bind at 1, emit at 1.
    unfold bind at 1, com_open at 1. cbn [w_files w_log]. rewrite Hwb.
    unfold make_pattern, bind at 1, ret at 1.
    unfold bind at 1.
    rewrite (foldM_append _ (fun sh => flat_map (map (cell_record (ws_name sh))) (ws_rows sh) ++
                                       map (shape_record (ws_name sh)) (ws_shapes sh))).
    + reflexivity.
    + intros b sh Hsh. apply search_sheet_empty.
      unfold columns_in_range in Hcols. rewrite forallb_forall in Hcols.
      exact (Hcols sh Hsh).
  - unfold every_item_record, item_count.
    induction (wb_sheets wb) as [|sh l IH]; [reflexivity|].
    cbn [flat_map map list_sum]. rewrite !length_app, IH, length_map.
    rewrite length_flat_map_map. reflexivity.
Qed.

Lemma C9_empty_search_matches_all_witness :
  fst (search_string_in_book book_path [] false false sample_world)
  = Ok (every_item_record sample_book) /\
  List.length (every_item_record sample_book) = item_count sample_book.
Proof.
  exact (C9_empty_search_matches_all (RE := fragment_engine) sample_world book_path
           eq_refl (ltac:(vm_compute; reflexivity))).
Defined.

(** ** Further properties of the code *)

(** *** [get_files_in_path] *)

Lemma keep_file_spec xlsm_flg f :
  keep_file xlsm_flg f = true <->
  (suffixb (py ".xlsx") f = true \/ (xlsm_flg = true /\ suffixb (py ".xlsm") f = true)) /\
  prefixb (py "~$") f = false.
Proof.
  unfold keep_file, valid_extensions.
  destruct xlsm_flg; cbn [existsb]; rewrite ?orb_false_r, andb_true_iff, negb_true_iff;
    [rewrite orb_true_iff|]; intuition discriminate.
Qed.

(** Every path [get_files_in_path] returns, in either mode, joins a directory
    with a name that ends in ".xlsx" (or ".xlsm" when [xlsm_flg] is set) and
    does not start with "~$". *)
Theorem get_files_in_path_filter (path_join : pystr -> pystr -> pystr)
    (dir_at : pystr -> option tree) (search_path : pystr) (sub_dir_flg xlsm_flg : bool)
    (l : list pystr) :
  get_files_in_path path_join dir_at search_path sub_dir_flg xlsm_flg = Some l ->
  forall x, In x l ->
  exists root f, x = path_join root f /\
    (suffixb (py ".xlsx") f = true \/ (xlsm_flg = true /\ suffixb (py ".xlsm") f = true)) /\
    prefixb (py "~$") f = false.
Proof.
  unfold get_files_in_path.
  destruct (if sub_dir_flg then _ else _) as [m|]; cbn [option_map]; [|discriminate].
  intros H; injection H as <-. intros x Hx.
  apply in_flat_map in Hx as [[[root dirs] files] [_ Hx]].
  apply in_map_iff in Hx as [f [<- Hf]]. apply filter_In in Hf as [_ Hk].
  exists root, f. split; [reflexivity|]. apply keep_file_spec; exact Hk.
Qed.

Definition sample_join (a b : pystr) : pystr := a ++ [92%N] ++ b.

Definition sample_tree : tree :=
  TDir [(py "a.xlsx", None); (py "~$a.xlsx", None); (py "b.xlsm", None);
        (py "old.xlsx", Some (TDir [(py "c.xlsx", None)]))].

Definition sample_dir_at (p : pystr) : option tree :=
  if str_eqb p (py "C:\work") then Some sample_tree else None.

Lemma get_files_in_path_filter_witness :
  exists root f, py "C:\work\a.xlsx" = sample_join root f /\
    (suffixb (py ".xlsx") f = true \/ (false = true /\ suffixb (py ".xlsm") f = true)) /\
    prefixb (py "~$") f = false.
Proof.
  apply (get_files_in_path_filter sample_join sample_dir_at (py "C:\work") true false
           (l := [py "C:\work\a.xlsx"; py "C:\work\old.xlsx\c.xlsx"])).
  - vm_compute. reflexivity.
  - left. reflexivity.
Defined.

(** Setting [xlsm_flg] only adds paths: every path found without it is found
    with it. *)
Theorem get_files_in_path_xlsm_monotone (path_join : pystr -> pystr -> pystr)
    (dir_at : pystr -> option tree) (search_path : pystr) (sub_dir_flg : bool)
    (l1 l2 : list pystr) :
  get_files_in_path path_join dir_at search_path sub_dir_flg false = Some l1 ->
  get_files_in_path path_join dir_at search_path sub_dir_flg true = Some l2 ->
  incl l1 l2.
Proof.
  unfold get_files_in_path.
  destruct (if sub_dir_flg then _ else _) as [m|]; cbn [option_map]; [|discriminate].
  intros H1 H2; injection H1 as <-; injection H2 as <-.
  intros x Hx. apply in_flat_map in Hx as [[[root dirs] files] [Hm Hx]].
  apply in_flat_map. exists (root, dirs, files). split; [exact Hm|].
  apply in_map_iff in Hx as [f [<- Hf]]. apply filter_In in Hf as [Hin Hk].
  apply in_map. apply filter_In. split; [exact Hin|].
  apply keep_file_spec in Hk as [[H|[H _]] Hp]; [|discriminate].
  apply keep_file_spec. split; [left|]; assumption.
Qed.

Lemma get_files_in_path_xlsm_monotone_witness :
  incl [py "C:\work\a.xlsx"; py "C:\work\old.xlsx"]
       [py "C:\work\a.xlsx"; py "C:\work\b.xlsm"; py "C:\work\old.xlsx"].
Proof.
  apply (get_files_in_path_xlsm_monotone sample_join sample_dir_at (py "C:\work") false);
    vm_compute; reflexivity.
Defined.

(** For a path that is not a directory, the non-recursive mode raises (from
    [os.listdir]) while the recursive mode returns an empty list ([os.walk]
    yields nothing). *)
Theorem get_files_in_path_missing_dir (path_join : pystr -> pystr -> pystr)
    (dir_at : pystr -> option tree) (search_path : pystr) (xlsm_flg : bool) :
  dir_at search_path = None ->
  get_files_in_path path_join dir_at search_path true xlsm_flg = Some [] /\
  get_files_in_path path_join dir_at search_path false xlsm_flg = None.
Proof.
  intros H. unfold get_files_in_path. rewrite H. split; reflexivity.
Qed.

Lemma get_files_in_path_missing_dir_witness :
  get_files_in_path sample_join sample_dir_at (py "C:\nowhere") true false = Some [] /\
  get_files_in_path sample_join sample_dir_at (py "C:\nowhere") false false = None.
Proof.
  exact (get_files_in_path_missing_dir sample_join sample_dir_at (py "C:\nowhere") false
           eq_refl).
Defined.

Lemma walk_flat (path_join : pystr -> pystr -> pystr) root es :
  (forall e, In e es -> snd e = None) ->
  walk path_join root (TDir es) = [(root, entry_dirs es, entry_files es)].
Proof.
  intros H. cbn [walk]. f_equal.
  induction es as [|[n [sub|]] es IH]; [reflexivity| |].
  - exfalso. specialize (H _ (or_introl eq_refl)). discriminate.
  - apply IH. intros e He. apply H. right. exact He.
Qed.

Lemma entry_files_flat es :
  (forall e, In e es -> snd e = None) -> entry_files es = map fst es.
Proof.
  intros H. unfold entry_files. f_equal.
  induction es as [|[n o] es IH]; [reflexivity|].
  pose proof (H _ (or_introl eq_refl)) as Hn. cbn [snd] in Hn. subst o.
  cbn [filter snd]. f_equal.
  apply IH. intros e He. apply H. right. exact He.
Qed.

(** In a directory without subdirectories, the recursive and non-recursive
    modes return the same paths. *)
Theorem get_files_in_path_flat_dir (path_join : pystr -> pystr -> pystr)
    (dir_at : pystr -> option tree) (search_path : pystr) (xlsm_flg : bool)
    (es : list (pystr * option tree)) :
  dir_at search_path = Some (TDir es) ->
  (forall e, In e es -> snd e = None) ->
  get_files_in_path path_join dir_at search_path true xlsm_flg
  = get_files_in_path path_join dir_at search_path false xlsm_flg.
Proof.
  intros Hd Hf. unfold get_files_in_path. rewrite Hd.
  rewrite walk_flat by exact Hf. cbn [option_map listdir].
  rewrite entry_files_flat by exact Hf. reflexivity.
Qed.

Lemma get_files_in_path_flat_dir_witness :
  get_files_in_path sample_join (fun _ => Some (TDir [(py "x.xlsx", None)])) (py "C:\w")
    true false
  = get_files_in_path sample_join (fun _ => Some (TDir [(py "x.xlsx", None)])) (py "C:\w")
    false false.
Proof.
  apply (get_files_in_path_flat_dir sample_join _ (py "C:\w") false
           (es := [(py "x.xlsx", None)]) eq_refl).
  intros e [<-|[]]. reflexivity.
Defined.

(** The non-recursive mode filters [os.listdir], which lists subdirectories
    too: a subdirectory whose name passes the filter is returned as a path. *)
Theorem get_files_in_path_lists_subdirs (path_join : pystr -> pystr -> pystr)
    (dir_at : pystr -> option tree) (search_path : pystr) (xlsm_flg : bool)
    (es : list (pystr * option tree)) (n : pystr) (sub : tree) :
  dir_at search_path = Some (TDir es) ->
  In (n, Some sub) es -> keep_file xlsm_flg n = true ->
  exists l, get_files_in_path path_join dir_at search_path false xlsm_flg = Some l /\
            In (path_join search_path n) l.
Proof.
  intros Hd Hin Hk. unfold get_files_in_path. rewrite Hd. cbn [option_map listdir].
  eexists; split; [reflexivity|].
  cbn [flat_map]. rewrite app_nil_r. apply in_map. apply filter_In. split; [|exact Hk].
  apply (in_map fst) in Hin. exact Hin.
Qed.

Lemma get_files_in_path_lists_subdirs_witness :
  exists l, get_files_in_path sample_join sample_dir_at (py "C:\work") false false = Some l /\
            In (sample_join (py "C:\work") (py "old.xlsx")) l.
Proof.
  apply (get_files_in_path_lists_subdirs sample_join sample_dir_at (py "C:\work") false
           (es := match sample_tree with TDir es => es end)
           (py "old.xlsx") (TDir [(py "c.xlsx", None)])).
  - reflexivity.
  - vm_compute. right; right; right; left; reflexivity.
  - vm_compute. reflexivity.
Defined.

(** *** Sheet names *)

(** [get_sheets_name] and [sort_sheet] only read: no file changes, whatever
    the order argument; on an openable workbook 'desc' gives the reverse of
    what 'asc' gives, and 'asc' gives the sorted [get_sheets_name]. *)
Theorem sort_sheet_read_only (w : world) (excel_file_path order : pystr) :
  w_files (snd (sort_sheet excel_file_path order w)) = w_files w /\
  w_files (snd (get_sheets_name excel_file_path w)) = w_files w /\
  (forall names, fst (get_sheets_name excel_file_path w) = Ok names ->
   fst (sort_sheet excel_file_path (py "asc") w) = Ok (sort_names names) /\
   fst (sort_sheet excel_file_path (py "desc") w) = Ok (rev (sort_names names))).
Proof.
  split.
  { unfold sort_sheet. destruct (negb _); [reflexivity|].
    cbv [load_workbook bind ret]. destruct (w_files w excel_file_path); reflexivity. }
  split.
  { cbv [get_sheets_name load_workbook bind ret].
    destruct (w_files w excel_file_path); reflexivity. }
  intros names H.
  assert (Hl : exists wb, w_files w excel_file_path = Some wb /\ names = sheetnames wb).
  { revert H. cbv [get_sheets_name load_workbook bind ret].
    destruct (w_files w excel_file_path) as [wb|]; [|discriminate].
    intros H. injection H as <-. eauto. }
  destruct Hl as [wb [E ->]]. unfold sort_sheet.
  change (negb (existsb (str_eqb (py_lower (py "asc"))) [py "asc"; py "desc"]))
    with false.
  change (negb (existsb (str_eqb (py_lower (py "desc"))) [py "asc"; py "desc"]))
    with false.
  change (str_eqb (py_lower (py "asc")) (py "desc")) with false.
  change (str_eqb (py_lower (py "desc")) (py "desc")) with true.
  cbv beta iota. cbv [load_workbook bind ret]. rewrite E. split; reflexivity.
Qed.

Lemma sort_sheet_read_only_witness :
  fst (sort_sheet book_path (py "asc") sample_world)
  = Ok (sort_names (sheetnames sample_book)) /\
  fst (sort_sheet book_path (py "desc") sample_world)
  = Ok (rev (sort_names (sheetnames sample_book))).
Proof.
  exact (proj2 (proj2 (sort_sheet_read_only sample_world book_path (py "x")))
           (sheetnames sample_book) eq_refl).
Defined.

(** *** Grid sizing: a missing sheet *)

(** When the workbook opens but holds no sheet of that name (the name and the
    sheet names being ASCII, compared case-insensitively), [set_grid_size]
    raises from [wb.Worksheets(sheet_name)] after the open: nothing is sized or
    saved, and the workbook is neither closed nor the application quit. *)
Theorem set_grid_size_missing_sheet (w : world) (excel_file_path sheet_name : pystr)
    (pixel_size : Z) (wb : workbook) :
  w_files w excel_file_path = Some wb ->
  ascii_name sheet_name = true ->
  forallb (fun sh => ascii_name (ws_name sh)) (wb_sheets wb) = true ->
  find_sheet sheet_name (wb_sheets wb) = None ->
  set_grid_size excel_file_path sheet_name pixel_size w
  = (Raise ComError, mk_world (w_files w)
                       (w_log w ++ [EDispatch; EOpen excel_file_path false])).
Proof.
  intros Hwb _ _ Hs. unfold set_grid_size, bind, catch, emit, com_open, ret, raise.
  cbn [w_files w_log]. rewrite Hwb. cbn [w_files w_log]. rewrite Hs.
  rewrite <- app_assoc. reflexivity.
Qed.

Lemma set_grid_size_missing_sheet_witness :
  set_grid_size book_path (py "Nope") 20 sample_world
  = (Raise ComError, mk_world (w_files sample_world)
                       (w_log sample_world ++ [EDispatch; EOpen book_path false])).
Proof.
  exact (set_grid_size_missing_sheet sample_world book_path (py "Nope") 20 eq_refl
           eq_refl eq_refl eq_refl).
Defined.

(** *** A pattern [re.compile] rejects *)

(** With [use_regex], a search string whose pattern [re.compile] rejects
    ([re.error]) makes [search_string_in_book] raise after the open: Excel is
    left running with the workbook open (no close, no quit). *)
Theorem search_invalid_regex `{RE : RegexEngine} (w : world)
    (excel_file_path search_string : pystr) (exact_match : bool) (wb : workbook) :
  w_files w excel_file_path = Some wb ->
  re_compile (if exact_match then [94%N] ++ re_escape search_string ++ [36%N]
              else search_string) = None ->
  search_string_in_book excel_file_path search_string exact_match true w
  = (Raise ReError,
     mk_world (w_files w) (w_log w ++ [EDispatch; EOpen excel_file_path true])).
Proof.
  intros Hwb Hc.
  unfold search_string_in_book, bind, emit, com_open, make_pattern, compile.
  cbn [w_files w_log]. rewrite Hwb.
  destruct exact_match; rewrite Hc; unfold raise; cbn [w_files w_log];
    rewrite <- app_assoc; reflexivity.
Qed.

Lemma search_invalid_regex_witness :
  search_string_in_book (RE := fragment_engine) book_path (py "a(") false true sample_world
  = (Raise ReError,
     mk_world (w_files sample_world) (w_log sample_world ++ [EDispatch; EOpen book_path true])).
Proof.
  exact (search_invalid_regex (RE := fragment_engine) sample_world book_path (py "a(")
           false eq_refl eq_refl).
Defined.

(** The same for [replace_string_in_book]: it raises after opening the
    workbook for writing, before any cell is set; nothing is saved, closed or
    quit, and no file changes. *)
Theorem replace_invalid_regex `{RE : RegexEngine} (w : world)
    (excel_file_path search_string replace_string : pystr) (exact_match : bool)
    (wb : workbook) :
  w_files w excel_file_path = Some wb ->
  re_compile (if exact_match then [94%N] ++ re_escape search_string ++ [36%N]
              else search_string) = None ->
  replace_string_in_book excel_file_path search_string replace_string exact_match true w
  = (Raise ReError,
     mk_world (w_files w) (w_log w ++ [EPrint; EDispatch; EOpen excel_file_path false])).
Proof.
  intros Hwb Hc.
  unfold replace_string_in_book, bind, catch, emit, com_open, make_pattern, compile.
  cbn [w_files w_log]. rewrite Hwb. unfold ret. cbn [w_files w_log].
  destruct exact_match; rewrite Hc; unfold raise; cbn [w_files w_log];
    rewrite <- !app_assoc; reflexivity.
Qed.

Lemma replace_invalid_regex_witness :
  replace_string_in_book (RE := fragment_engine) book_path (py "a(") (py "x") false true
    sample_world
  = (Raise ReError,
     mk_world (w_files sample_world)
       (w_log sample_world ++ [EPrint; EDispatch; EOpen book_path false])).
Proof.
  exact (replace_invalid_regex (RE := fragment_engine) sample_world book_path (py "a(")
           (py "x") false eq_refl eq_refl).
Defined.

(** *** Changing the font *)

Lemma get_sheet_name (name : pystr) (l : list worksheet) (s : worksheet) :
  get_sheet name l = Some s -> ws_name s = name.
Proof.
  induction l as [|s' l IH]; cbn [get_sheet]; [discriminate|].
  destruct (str_eqb (ws_name s') name) eqn:E; [|exact IH].
  intros H; injection H as <-. apply str_eqb_eq; exact E.
Qed.

Lemma apply_font_names (name font_name : pystr) (l : list worksheet) :
  map ws_name (apply_font name font_name l) = map ws_name l.
Proof.
  induction l as [|s l IH]; cbn [apply_font map]; [reflexivity|].
  destruct (str_eqb (ws_name s) name); cbn [map ws_name]; congruence.
Qed.

Lemma apply_font_values (name font_name : pystr) (l : list worksheet) :
  map (fun s => map (map c_value) (ws_rows s)) (apply_font name font_name l)
  = map (fun s => map (map c_value) (ws_rows s)) l.
Proof.
  induction l as [|s l IH]; cbn [apply_font]; [reflexivity|].
  destruct (str_eqb (ws_name s) name); cbn [map ws_rows]; [|congruence].
  f_equal. rewrite map_map. apply map_ext. intros row. rewrite map_map. reflexivity.
Qed.

Lemma get_sheet_apply_font (name font_name : pystr) (l : list worksheet) (ws : worksheet) :
  get_sheet name l = Some ws ->
  exists ws', get_sheet name (apply_font name font_name l) = Some ws' /\
    ws_name ws' = name /\ ws_rows ws' = map (map (set_font font_name)) (ws_rows ws).
Proof.
  induction l as [|s l IH]; cbn [get_sheet apply_font]; [discriminate|].
  destruct (str_eqb (ws_name s) name) eqn:E.
  - intros H; injection H as <-. cbn [get_sheet ws_name]. rewrite E.
    eexists; split; [reflexivity|]. split; [apply str_eqb_eq; exact E | reflexivity].
  - intros H. cbn [get_sheet]. rewrite E. exact (IH H).
Qed.

Lemma apply_font_idem (name font_name : pystr) (l : list worksheet) :
  apply_font name font_name (apply_font name font_name l) = apply_font name font_name l.
Proof.
  induction l as [|s l IH]; cbn [apply_font]; [reflexivity|].
  destruct (str_eqb (ws_name s) name) eqn:E; cbn [apply_font ws_name ws_rows ws_shapes
    ws_row_height ws_col_width]; rewrite E; [|congruence].
  do 2 f_equal. rewrite map_map. apply map_ext. intros row. rewrite map_map.
  apply map_ext. intros c. reflexivity.
Qed.

Lemma change_font_run (w : world) (excel_file_path sheet_name font_name : pystr)
    (wb : workbook) (ws : worksheet) :
  w_files w excel_file_path = Some wb ->
  get_sheet sheet_name (wb_sheets wb) = Some ws ->
  change_font excel_file_path sheet_name font_name w
  = (Ok tt, mk_world (fun q => if str_eqb q excel_file_path
                               then Some (mk_wb (apply_font sheet_name font_name
                                                            (wb_sheets wb)))
                               else w_files w q)
                     (w_log w ++ [ELoad excel_file_path; ESave excel_file_path])).
Proof.
  intros Hwb Hg. pose proof (get_sheet_name _ _ Hg) as Hn.
  unfold change_font, load_workbook, bind, get_sheet_M, save_as, write_file, emit, ret.
  rewrite Hwb. cbn [w_files w_log]. rewrite Hg, Hn. cbv beta iota zeta. cbn [w_files w_log].
  unfold bind. cbn [w_files w_log]. rewrite <- app_assoc. reflexivity.
Qed.

(** [change_font] on a sheet present in an openable workbook saves the
    workbook in place with the same sheets in the same order and the same cell
    values, every cell of the used range of that sheet now in [font_name]. *)
Theorem change_font_effect (w : world) (excel_file_path sheet_name font_name : pystr)
    (wb : workbook) :
  w_files w excel_file_path = Some wb ->
  In sheet_name (sheetnames wb) ->
  exists wb',
    change_font excel_file_path sheet_name font_name w
    = (Ok tt, mk_world (fun q => if str_eqb q excel_file_path then Some wb'
                                 else w_files w q)
                       (w_log w ++ [ELoad excel_file_path; ESave excel_file_path])) /\
    sheetnames wb' = sheetnames wb /\
    map (fun s => map (map c_value) (ws_rows s)) (wb_sheets wb')
    = map (fun s => map (map c_value) (ws_rows s)) (wb_sheets wb) /\
    exists ws', get_sheet sheet_name (wb_sheets wb') = Some ws' /\
      Forall (Forall (fun c => c_font c = font_name)) (ws_rows ws').
Proof.
  intros Hwb Hin.
  assert (Hg : exists ws, get_sheet sheet_name (wb_sheets wb) = Some ws).
  { unfold sheetnames in Hin. induction (wb_sheets wb) as [|s l IH]; [destruct Hin|].
    cbn [get_sheet]. destruct (str_eqb (ws_name s) sheet_name) eqn:E; [eauto|].
    apply IH. destruct Hin as [Hs|Hs]; [|exact Hs].
    subst. rewrite str_eqb_refl in E. discriminate. }
  destruct Hg as [ws Hg].
  exists (mk_wb (apply_font sheet_name font_name (wb_sheets wb))).
  split; [exact (change_font_run w excel_file_path sheet_name font_name Hwb Hg)|].
  split; [apply apply_font_names|].
  split; [apply apply_font_values|].
  destruct (get_sheet_apply_font sheet_name font_name _ Hg) as [ws' [Hg' [_ Hr]]].
  exists ws'. split; [exact Hg'|]. rewrite Hr.
  apply Forall_map. apply Forall_forall. intros row _.
  apply Forall_map. apply Forall_forall. intros c _. reflexivity.
Qed.

Lemma change_font_effect_witness :
  exists wb',
    change_font book_path (py "Sheet1") (py "Meiryo") sample_world
    = (Ok tt, mk_world (fun q => if str_eqb q book_path then Some wb'
                                 else w_files sample_world q)
                       (w_log sample_world ++ [ELoad book_path; ESave book_path])) /\
    sheetnames wb' = sheetnames sample_book /\
    map (fun s => map (map c_value) (ws_rows s)) (wb_sheets wb')
    = map (fun s => map (map c_value) (ws_rows s)) (wb_sheets sample_book) /\
    exists ws', get_sheet (py "Sheet1") (wb_sheets wb') = Some ws' /\
      Forall (Forall (fun c => c_font c = py "Meiryo")) (ws_rows ws').
Proof.
  apply (change_font_effect sample_world book_path (py "Sheet1") (py "Meiryo") eq_refl).
  left. reflexivity.
Defined.

(** Changing the font twice to the same font leaves every file as changing it
    once does. *)
Theorem change_font_idempotent (w : world) (excel_file_path sheet_name font_name : pystr)
    (wb : workbook) :
  w_files w excel_file_path = Some wb ->
  In sheet_name (sheetnames wb) ->
  let w1 := snd (change_font excel_file_path sheet_name font_name w) in
  let w2 := snd (change_font excel_file_path sheet_name font_name w1) in
  forall q, w_files w2 q = w_files w1 q.
Proof.
  intros Hwb Hin.
  assert (Hg : exists ws, get_sheet sheet_name (wb_sheets wb) = Some ws).
  { unfold sheetnames in Hin. induction (wb_sheets wb) as [|s l IH]; [destruct Hin|].
    cbn [get_sheet]. destruct (str_eqb (ws_name s) sheet_name) eqn:E; [eauto|].
    apply IH. destruct Hin as [Hs|Hs]; [|exact Hs].
    subst. rewrite str_eqb_refl in E. discriminate. }
  destruct Hg as [ws Hg].
  destruct (get_sheet_apply_font sheet_name font_name _ Hg) as [ws' [Hg' _]].
  intros w1 w2. subst w1 w2.
  rewrite (change_font_run w excel_file_path sheet_name font_name Hwb Hg).
  cbn [snd].
  rewrite (change_font_run _ excel_file_path sheet_name font_name
             (wb := mk_wb (apply_font sheet_name font_name (wb_sheets wb))) (ws := ws')).
  - cbn [snd w_files wb_sheets]. rewrite apply_font_idem.
    intros q. destruct (str_eqb q excel_file_path); reflexivity.
  - cbn [w_files]. rewrite str_eqb_refl. reflexivity.
  - exact Hg'.
Qed.

Lemma change_font_idempotent_witness :
  let w1 := snd (change_font book_path (py "Sheet1") (py "Meiryo") sample_world) in
  let w2 := snd (change_font book_path (py "Sheet1") (py "Meiryo") w1) in
  w_files w2 book_path = w_files w1 book_path.
Proof.
  intros w1 w2.
  exact (change_font_idempotent sample_world book_path (py "Sheet1") (py "Meiryo")
           eq_refl (or_introl eq_refl) book_path).
Defined.

(** *** Grid sizing: what a successful call touches *)

Lemma set_sheet_size_content (name : pystr) (h cw : float) (l : list worksheet) :
  map (fun s => (ws_name s, ws_rows s, ws_shapes s)) (set_sheet_size name h cw l)
  = map (fun s => (ws_name s, ws_rows s, ws_shapes s)) l.
Proof.
  induction l as [|s l IH]; cbn [set_sheet_size]; [reflexivity|].
  destruct (str_eqb (sheet_key (ws_name s)) (sheet_key name)); cbn [map];
    [reflexivity | congruence].
Qed.

Lemma set_sheet_size_others (name : pystr) (h cw : float) (l : list worksheet)
    (s : worksheet) :
  In s l -> sheet_key (ws_name s) <> sheet_key name -> In s (set_sheet_size name h cw l).
Proof.
  induction l as [|s' l IH]; cbn [set_sheet_size In]; [tauto|].
  intros Hin Hk. destruct (str_eqb (sheet_key (ws_name s')) (sheet_key name)) eqn:E.
  - destruct Hin as [<-|Hin]; [|right; exact Hin].
    apply str_eqb_eq in E. contradiction.
  - destruct Hin as [<-|Hin]; [left; reflexivity | right; exact (IH Hin Hk)].
Qed.

(** When the workbook opens and holds the sheet, and the pixel size is from
    0 to 545 (both sizes in the ranges Excel accepts), [set_grid_size] saves the
    workbook in place (no other file changes), logs the two sizes, the save,
    the close with saving and a message, and returns [None]; the saved
    workbook has the same sheets, in order, with the same names, cells and
    shapes, and every sheet whose name differs from [sheet_name] also in case
    keeps its sizes. *)
Theorem set_grid_size_keeps_content (w : world) (excel_file_path sheet_name : pystr)
    (pixel_size : Z) (wb : workbook) (ws : worksheet) :
  w_files w excel_file_path = Some wb ->
  find_sheet sheet_name (wb_sheets wb) = Some ws ->
  (0 <= pixel_size <= 545)%Z ->
  let row_size := (float_of_int pixel_size * 0.75)%float in
  let col_size := (float_of_int pixel_size * 0.14)%float in
  exists wb',
    set_grid_size excel_file_path sheet_name pixel_size w
    = (Ok RetNone,
       mk_world (fun q => if str_eqb q excel_file_path then Some wb' else w_files w q)
         (w_log w ++ [EDispatch; EOpen excel_file_path false;
                      ESetRowHeight (ws_name ws) row_size;
                      ESetColWidth (ws_name ws) col_size;
                      ESave excel_file_path; EClose true; EPrint])) /\
    map (fun s => (ws_name s, ws_rows s, ws_shapes s)) (wb_sheets wb')
    = map (fun s => (ws_name s, ws_rows s, ws_shapes s)) (wb_sheets wb) /\
    (forall s, In s (wb_sheets wb) -> sheet_key (ws_name s) <> sheet_key sheet_name ->
               In s (wb_sheets wb')).
Proof.
  intros Hwb Hws Hz row_size col_size.
  destruct (grid_sizes_in_range Hz) as [Hr Hc].
  exists (mk_wb (set_sheet_size sheet_name row_size col_size (wb_sheets wb))).
  split; [|split; [apply set_sheet_size_content | intros s; apply set_sheet_size_others]].
  unfold set_grid_size, bind, catch, emit, com_open, ret.
  cbn [w_files w_log]. rewrite Hwb. cbn [w_files w_log]. rewrite Hws.
  unfold set_row_height, set_column_width. subst row_size col_size. rewrite Hr, Hc.
  unfold save_as, write_file, bind, emit. cbn [fst snd w_files w_log].
  rewrite <- !app_assoc. reflexivity.
Qed.

Lemma set_grid_size_keeps_content_witness :
  exists wb',
    set_grid_size book_path (py "sheet1") 20 sample_world
    = (Ok RetNone,
       mk_world (fun q => if str_eqb q book_path then Some wb' else w_files sample_world q)
         (w_log sample_world ++ [EDispatch; EOpen book_path false;
                      ESetRowHeight (py "Sheet1") (float_of_int 20 * 0.75)%float;
                      ESetColWidth (py "Sheet1") (float_of_int 20 * 0.14)%float;
                      ESave book_path; EClose true; EPrint])) /\
    map (fun s => (ws_name s, ws_rows s, ws_shapes s)) (wb_sheets wb')
    = map (fun s => (ws_name s, ws_rows s, ws_shapes s)) (wb_sheets sample_book) /\
    (forall s, In s (wb_sheets sample_book) ->
               sheet_key (ws_name s) <> sheet_key (py "sheet1") ->
               In s (wb_sheets wb')).
Proof.
  refine (set_grid_size_keeps_content sample_world book_path (py "sheet1")
            (pixel_size := 20) (ws := sample_sheet) eq_refl eq_refl _).
  lia.
Defined.

(** *** What search and replace report *)

Lemma foldM_inv {A B} (P : B -> Prop) (f : B -> A -> M B) (l : list A) :
  (forall b a w r w', In a l -> P b -> f b a w = (Ok r, w') -> P r) ->
  forall b w r w', P b -> foldM f b l w = (Ok r, w') -> P r.
Proof.
  induction l as [|x l IH]; intros Hf b w r w' Hb; cbn [foldM].
  - unfold ret. intros H; injection H as <- _. exact Hb.
  - unfold bind. destruct (f b x w) as [[b1|e] w1] eqn:E; [|discriminate].
    apply (IH (fun b a w r w' Ha => Hf b a w r w' (or_intror Ha)) b1 w1).
    exact (Hf _ _ _ _ _ (or_introl eq_refl) Hb E).
Qed.

Arguments foldM_inv {A B} P f l _ b w r w' _ _.

Lemma map_accumM_inv {A B} (P : B -> Prop) (f : B -> A -> M (A * B)) (l : list A) :
  (forall b a w r w', In a l -> P b -> f b a w = (Ok r, w') -> P (snd r)) ->
  forall b w r w', P b -> map_accumM f b l w = (Ok r, w') -> P (snd r).
Proof.
  induction l as [|x l IH]; intros Hf b w r w' Hb; cbn [map_accumM].
  - unfold ret. intros H; injection H as <- _. exact Hb.
  - unfold bind, ret. destruct (f b x w) as [[r1|e] w1] eqn:E; [|discriminate].
    destruct (map_accumM f (snd r1) l w1) as [[r2|e] w2] eqn:E2; [|discriminate].
    intros H; injection H as <- _. cbn [snd].
    apply (IH (fun b a w r w' Ha => Hf b a w r w' (or_intror Ha)) (snd r1) w1 r2 w2);
      [|exact E2].
    exact (Hf _ _ _ _ _ (or_introl eq_refl) Hb E).
Qed.

Arguments map_accumM_inv {A B} P f l _ b w r w' _ _.

Lemma map_accumM_id {A B} (f : B -> A -> M (A * B)) (l : list A) (b : B) (w : world) :
  (forall a, In a l -> f b a w = (Ok (a, b), w)) -> map_accumM f b l w = (Ok (l, b), w).
Proof.
  induction l as [|x l IH]; intros Hf; cbn [map_accumM]; [reflexivity|].
  unfold bind, ret. rewrite (Hf x (or_introl eq_refl)). cbn [fst snd].
  rewrite IH; [reflexivity|]. intros a Ha. exact (Hf a (or_intror Ha)).
Qed.

Ltac split_matches H :=
  repeat (cbv beta iota zeta in H;
          match type of H with
          | context [match ?x with Some _ => _ | None => _ end] =>
              let E := fresh "E" in destruct x eqn:E
          | context [if ?b then _ else _] =>
              let E := fresh "E" in destruct b eqn:E
          end).

Section Steps.

Context {RE : RegexEngine}.
Variables (pattern : option re_pat) (search_string replace_string : pystr)
          (exact_match use_regex : bool) (sheet_name : pystr).

Lemma search_cell_step results c w r w' :
  search_cell pattern search_string exact_match use_regex sheet_name results c w
  = (Ok r, w') ->
  r = results \/
  exists loc, cell_label c = Some loc /\
    search_hit pattern search_string exact_match use_regex (cell_str c) = true /\
    r = results ++ [(sheet_name, loc, cell_str c)].
Proof.
  intros H. unfold search_cell, pattern_search, cell_label_M, bind, ret, raise in H.
  unfold search_hit.
  destruct use_regex, exact_match; split_matches H; try discriminate H;
    injection H as <- _; first [left; reflexivity | right; eexists; repeat split; eauto].
Qed.

Lemma search_shape_step results s w r w' :
  search_shape pattern search_string exact_match use_regex sheet_name results s w
  = (Ok r, w') ->
  r = results \/
  (search_hit pattern search_string exact_match use_regex (sp_text s) = true /\
   r = results ++ [(sheet_name, shape_label (sp_name s), sp_text s)]).
Proof.
  intros H. unfold search_shape, pattern_search, bind, ret, raise in H.
  unfold search_hit.
  destruct use_regex, exact_match; split_matches H; try discriminate H;
    injection H as <- _; first [left; reflexivity | right; repeat split; eauto].
Qed.

Lemma compute_new_spec text w r w' :
  compute_new pattern search_string replace_string exact_match use_regex text w
  = (Ok r, w') ->
  w' = w /\
  ((search_hit pattern search_string exact_match use_regex text = true /\
    r = expected_new pattern search_string replace_string exact_match use_regex text) \/
   r = text).
Proof.
  intros H. unfold compute_new, pattern_search, bind, ret, raise in H.
  unfold search_hit, expected_new, literal_new.
  destruct use_regex, exact_match; split_matches H; try discriminate H;
    injection H as <- <-; split; auto; first [right; reflexivity | left; auto].
Qed.

Lemma replace_cell_step results c w r w' :
  replace_cell pattern search_string replace_string exact_match use_regex sheet_name
    results c w = (Ok r, w') ->
  snd r = results \/
  exists loc new, cell_label c = Some loc /\
    search_hit pattern search_string exact_match use_regex (cell_str c) = true /\
    new = expected_new pattern search_string replace_string exact_match use_regex
            (cell_str c) /\
    new <> cell_str c /\
    snd r = results ++ [(sheet_name, loc, cell_str c, new)].
Proof.
  unfold replace_cell. cbv zeta. unfold bind at 1.
  destruct (compute_new pattern search_string replace_string exact_match use_regex
              (cell_str c) w) as [[new|e] w1] eqn:Hc; [|discriminate].
  destruct (compute_new_spec _ _ Hc) as [-> Hn].
  destruct (str_eqb new (cell_str c)) eqn:Heq; cbn [negb].
  - unfold ret. intros H; injection H as <- _. left; reflexivity.
  - unfold cell_label_M, bind, emit, ret, raise.
    destruct (cell_label c) as [loc|]; [|discriminate].
    intros H; injection H as <- _. right. exists loc, new.
    assert (Hne : new <> cell_str c) by (intros ->; rewrite str_eqb_refl in Heq; discriminate).
    destruct Hn as [[Hh ->]| ->]; [|contradiction].
    repeat split; auto.
Qed.

Lemma replace_shape_step results s w r w' :
  replace_shape pattern search_string replace_string exact_match use_regex sheet_name
    results s w = (Ok r, w') ->
  snd r = results \/
  exists new,
    search_hit pattern search_string exact_match use_regex (sp_text s) = true /\
    new = expected_new pattern search_string replace_string exact_match use_regex
            (sp_text s) /\
    new <> sp_text s /\
    snd r = results ++ [(sheet_name, shape_label (sp_name s), sp_text s, new)].
Proof.
  unfold replace_shape. cbv zeta. unfold bind at 1.
  destruct (compute_new pattern search_string replace_string exact_match use_regex
              (sp_text s) w) as [[new|e] w1] eqn:Hc; [|discriminate].
  destruct (compute_new_spec _ _ Hc) as [-> Hn].
  destruct (str_eqb new (sp_text s)) eqn:Heq; cbn [negb].
  - unfold ret. intros H; injection H as <- _. left; reflexivity.
  - unfold bind, emit, ret.
    intros H; injection H as <- _. right. exists new.
    assert (Hne : new <> sp_text s) by (intros ->; rewrite str_eqb_refl in Heq; discriminate).
    destruct Hn as [[Hh ->]| ->]; [|contradiction].
    repeat split; auto.
Qed.

End Steps.

Arguments search_cell_step {RE pattern search_string exact_match use_regex sheet_name
  results c w r w'} _.
Arguments search_shape_step {RE pattern search_string exact_match use_regex sheet_name
  results s w r w'} _.
Arguments replace_cell_step {RE pattern search_string replace_string exact_match
  use_regex sheet_name results c w r w'} _.
Arguments replace_shape_step {RE pattern search_string replace_string exact_match
  use_regex sheet_name results s w r w'} _.

Section SheetSoundness.

Context {RE : RegexEngine}.
Variables (pattern : option re_pat) (search_string replace_string : pystr)
          (exact_match use_regex : bool) (wb : workbook).

Lemma search_sheet_sound sh results w r w' :
  In sh (wb_sheets wb) ->
  Forall (found_record pattern search_string exact_match use_regex wb) results ->
  search_sheet pattern search_string exact_match use_regex results sh w = (Ok r, w') ->
  Forall (found_record pattern search_string exact_match use_regex wb) r.
Proof.
  intros Hsh Hres. unfold search_sheet. cbv zeta. unfold bind at 1.
  set (P := Forall (found_record pattern search_string exact_match use_regex wb)).
  destruct (foldM _ results (ws_rows sh) w) as [[r1|e] w1] eqn:E1; [|discriminate].
  assert (H1 : P r1).
  { refine (foldM_inv P _ (ws_rows sh) _ results w r1 w1 Hres E1).
    intros b row w0 r0 w0' Hrow Hb Hf.
    refine (foldM_inv P _ row _ b w0 r0 w0' Hb Hf).
    intros b' c w2 r2 w2' Hc Hb' Hs.
    destruct (search_cell_step Hs) as [->|[loc [Hl [Hh ->]]]];
      [exact Hb'|].
    apply Forall_app; split; [exact Hb'|]. constructor; [|constructor].
    split; [exact Hh|]. exists sh. split; [exact Hsh|]. split; [reflexivity|].
    left. exists row, c. auto. }
  refine (foldM_inv P _ (ws_shapes sh) _ r1 w1 r w' H1).
  intros b s w0 r0 w0' Hs Hb Hf.
  destruct (search_shape_step Hf) as [->|[Hh ->]]; [exact Hb|].
  apply Forall_app; split; [exact Hb|]. constructor; [|constructor].
  split; [exact Hh|]. exists sh. split; [exact Hsh|]. split; [reflexivity|].
  right. exists s. auto.
Qed.

Lemma replace_sheet_sound sh results w r w' :
  In sh (wb_sheets wb) ->
  Forall (replaced_record pattern search_string replace_string exact_match use_regex wb)
    results ->
  replace_sheet pattern search_string replace_string exact_match use_regex results sh w
  = (Ok r, w') ->
  Forall (replaced_record pattern search_string replace_string exact_match use_regex wb)
    (snd r).
Proof.
  intros Hsh Hres. unfold replace_sheet. cbv zeta. unfold bind at 1.
  set (P := Forall (replaced_record pattern search_string replace_string exact_match
                      use_regex wb)).
  destruct (map_accumM _ results (ws_rows sh) w) as [[r1|e] w1] eqn:E1; [|discriminate].
  assert (H1 : P (snd r1)).
  { refine (map_accumM_inv P _ (ws_rows sh) _ results w r1 w1 Hres E1).
    intros b row w0 r0 w0' Hrow Hb Hf.
    refine (map_accumM_inv P _ row _ b w0 r0 w0' Hb Hf).
    intros b' c w2 r2 w2' Hc Hb' Hs.
    destruct (replace_cell_step Hs)
      as [->|[loc [new [Hl [Hh [Hn [Hne ->]]]]]]]; [exact Hb'|].
    apply Forall_app; split; [exact Hb'|]. constructor; [|constructor].
    split; [exact Hh|]. split; [exact Hn|]. split; [exact Hne|].
    exists sh. split; [exact Hsh|]. split; [reflexivity|].
    left. exists row, c. auto. }
  unfold bind.
  destruct (map_accumM _ (snd r1) (ws_shapes sh) w1) as [[r2|e] w2] eqn:E2;
    [|discriminate].
  unfold ret. intros H; injection H as <- _. cbn [snd].
  refine (map_accumM_inv P _ (ws_shapes sh) _ (snd r1) w1 r2 w2 H1 E2).
  intros b s w0 r0 w0' Hs Hb Hf.
  destruct (replace_shape_step Hf)
    as [->|[new [Hh [Hn [Hne ->]]]]]; [exact Hb|].
  apply Forall_app; split; [exact Hb|]. constructor; [|constructor].
  split; [exact Hh|]. split; [exact Hn|]. split; [exact Hne|].
  exists sh. split; [exact Hsh|]. split; [reflexivity|].
  right. exists s. auto.
Qed.

End SheetSoundness.

Lemma make_pattern_ok `{RE : RegexEngine} (search_string : pystr)
    (exact_match use_regex : bool) (w : world) (pattern : option re_pat) :
  fst (make_pattern search_string exact_match use_regex w) = Ok pattern ->
  forall w0, make_pattern search_string exact_match use_regex w0 = (Ok pattern, w0).
Proof.
  unfold make_pattern, compile, bind, ret, raise.
  destruct use_regex; [destruct exact_match|];
    [destruct (re_compile ([94%N] ++ re_escape search_string ++ [36%N]))
    | destruct (re_compile search_string) | ];
    cbn [fst]; try discriminate; intros H; injection H as <-; reflexivity.
Qed.

Lemma make_pattern_regex `{RE : RegexEngine} (search_string : pystr) (exact_match : bool)
    (w : world) (pattern : option re_pat) :
  fst (make_pattern search_string exact_match true w) = Ok pattern ->
  exists p, pattern = Some p.
Proof.
  unfold make_pattern, compile, bind, ret, raise.
  destruct exact_match;
    [destruct (re_compile ([94%N] ++ re_escape search_string ++ [36%N]))
    | destruct (re_compile search_string)];
    cbn [fst]; try discriminate; intros H; injection H as <-; eauto.
Qed.

(** Every result of a successful [search_string_in_book] names a sheet of the
    workbook and a cell (by its label) or a shape of that sheet, with that
    item's text, and that text is a match for the mode: contains the search
    string, equals it, or is found by the compiled pattern. *)
Theorem search_results_sound `{RE : RegexEngine} (w : world)
    (excel_file_path search_string : pystr) (exact_match use_regex : bool)
    (results : list search_record) :
  fst (search_string_in_book excel_file_path search_string exact_match use_regex w)
  = Ok results ->
  exists wb pattern,
    w_files w excel_file_path = Some wb /\
    fst (make_pattern search_string exact_match use_regex w) = Ok pattern /\
    Forall (found_record pattern search_string exact_match use_regex wb) results.
Proof.
  unfold search_string_in_book, bind at 1, emit.
  unfold bind at 1, com_open. cbn [w_files w_log].
  destruct (w_files w excel_file_path) as [wb|] eqn:Hwb; [|discriminate].
  unfold bind at 1.
  set (w2 := mk_world _ _).
  destruct (make_pattern search_string exact_match use_regex w2) as [[pattern|e] w3]
    eqn:Hp; [|discriminate].
  unfold bind at 1.
  destruct (foldM (search_sheet pattern search_string exact_match use_regex) []
                  (wb_sheets wb) w3) as [[res|e] w4] eqn:Hf; [|discriminate].
  unfold bind, emit, ret. cbn [fst]. intros H; injection H as <-.
  exists wb, pattern. split; [reflexivity|]. split.
  - rewrite (make_pattern_ok search_string exact_match use_regex w2 (pattern := pattern))
      by (rewrite Hp; reflexivity). reflexivity.
  - refine (foldM_inv _ _ (wb_sheets wb) _ [] w3 res w4 (Forall_nil _) Hf).
    intros b sh w0 r0 w0' Hsh Hb Hs. exact (search_sheet_sound _ _ Hsh Hb Hs).
Qed.

Lemma search_results_sound_witness :
  exists wb pattern,
    w_files sample_world book_path = Some wb /\
    fst (make_pattern (RE := fragment_engine) (py "abc") false false sample_world)
    = Ok pattern /\
    Forall (found_record pattern (py "abc") false false wb)
      [(py "Sheet1", py "A1", py "abcxyz"); (py "Sheet1", py "B1", py "abc")].
Proof.
  apply (search_results_sound (RE := fragment_engine) sample_world book_path (py "abc")
           false false).
  vm_compute. reflexivity.
Defined.

(** Every change a successful [replace_string_in_book] reports is a cell (by
    its label) or a shape of a sheet of the workbook, with its text before the
    change; that text is a match for the mode, the new text is the one the mode
    computes ([pattern.sub], or [str.replace], or the replace string for an
    exact match) and differs from it.  When the workbook cannot be opened the
    result is empty. *)
Theorem replace_results_sound `{RE : RegexEngine} (w : world)
    (excel_file_path search_string replace_string : pystr)
    (exact_match use_regex : bool) (results : list replace_record) :
  fst (replace_string_in_book excel_file_path search_string replace_string exact_match
         use_regex w) = Ok results ->
  (w_files w excel_file_path = None /\ results = []) \/
  exists wb pattern,
    w_files w excel_file_path = Some wb /\
    fst (make_pattern search_string exact_match use_regex w) = Ok pattern /\
    Forall (replaced_record pattern search_string replace_string exact_match use_regex wb)
      results.
Proof.
  intros H.
  unfold replace_string_in_book, bind at 1, emit in H.
  unfold bind at 1 in H. cbn [w_files w_log] in H.
  unfold bind at 1, catch, com_open, bind in H. cbn [w_files w_log] in H.
  destruct (w_files w excel_file_path) as [wb|] eqn:Hwb.
  2:{ unfold emit, ret in H. cbn [fst] in H. injection H as <-. left; auto. }
  unfold ret in H. right. exists wb.
  set (w2 := mk_world _ _) in H.
  destruct (make_pattern search_string exact_match use_regex w2) as [[pattern|e] w3]
    eqn:Hp; [|discriminate].
  exists pattern. split; [reflexivity|]. split.
  { rewrite (make_pattern_ok search_string exact_match use_regex w2 (pattern := pattern))
      by (rewrite Hp; reflexivity). reflexivity. }
  destruct (map_accumM (replace_sheet pattern search_string replace_string exact_match
                          use_regex) [] (wb_sheets wb) w3) as [[r|e] w4] eqn:Hf;
    [|discriminate].
  unfold save_as, write_file, emit in H. cbn [fst] in H. injection H as <-.
  refine (map_accumM_inv _ _ (wb_sheets wb) _ [] w3 r w4 (Forall_nil _) Hf).
  intros b sh w0 r0 w0' Hsh Hb Hs. exact (replace_sheet_sound _ _ Hsh Hb Hs).
Qed.

Lemma replace_results_sound_witness :
  (w_files sample_world book_path = None /\
   [(py "Sheet1", py "A1", py "abcxyz", py "XYZxyz");
    (py "Sheet1", py "B1", py "abc", py "XYZ")] = []) \/
  exists wb pattern,
    w_files sample_world book_path = Some wb /\
    fst (make_pattern (RE := fragment_engine) (py "abc") false false sample_world)
    = Ok pattern /\
    Forall (replaced_record pattern (py "abc") (py "XYZ") false false wb)
      [(py "Sheet1", py "A1", py "abcxyz", py "XYZxyz");
       (py "Sheet1", py "B1", py "abc", py "XYZ")].
Proof.
  apply (replace_results_sound (RE := fragment_engine) sample_world book_path (py "abc")
           (py "XYZ") false false).
  vm_compute. reflexivity.
Defined.

Section NoHit.

Context {RE : RegexEngine}.
Variables (pattern : option re_pat) (search_string replace_string : pystr)
          (exact_match use_regex : bool).
Hypothesis Hpattern : use_regex = true -> exists p, pattern = Some p.

Lemma compute_new_nohit text w :
  search_hit pattern search_string exact_match use_regex text = false ->
  compute_new pattern search_string replace_string exact_match use_regex text w
  = (Ok text, w).
Proof.
  unfold compute_new, search_hit. intros H.
  destruct use_regex.
  - destruct (Hpattern eq_refl) as [p ->]. unfold pattern_search, bind, ret.
    rewrite H. reflexivity.
  - destruct exact_match; rewrite H; reflexivity.
Qed.

Lemma replace_sheet_nohit sh results w :
  (forall row c, In row (ws_rows sh) -> In c row ->
     search_hit pattern search_string exact_match use_regex (cell_str c) = false) ->
  (forall s, In s (ws_shapes sh) ->
     search_hit pattern search_string exact_match use_regex (sp_text s) = false) ->
  replace_sheet pattern search_string replace_string exact_match use_regex results sh w
  = (Ok (sh, results), w).
Proof.
  intros Hc Hs. unfold replace_sheet. cbv zeta. unfold bind at 1.
  rewrite map_accumM_id.
  2:{ intros row Hrow. apply map_accumM_id. intros c Hin.
      unfold replace_cell. cbv zeta. unfold bind at 1.
      rewrite (compute_new_nohit _ _ (Hc row c Hrow Hin)), str_eqb_refl. reflexivity. }
  unfold bind. cbn [fst snd].
  rewrite map_accumM_id.
  2:{ intros s Hin. unfold replace_shape. cbv zeta. unfold bind at 1.
      rewrite (compute_new_nohit _ _ (Hs s Hin)), str_eqb_refl. reflexivity. }
  unfold ret. cbn [fst snd]. destruct sh; reflexivity.
Qed.

End NoHit.

Lemma replace_nohit_run `{RE : RegexEngine} (w : world)
    (excel_file_path search_string replace_string : pystr)
    (exact_match use_regex : bool) (wb : workbook) (pattern : option re_pat) :
  w_files w excel_file_path = Some wb ->
  fst (make_pattern search_string exact_match use_regex w) = Ok pattern ->
  hit_in_book pattern search_string exact_match use_regex wb = false ->
  replace_string_in_book excel_file_path search_string replace_string exact_match
    use_regex w
  = (Ok [], mk_world (fun q => if str_eqb q excel_file_path then Some wb else w_files w q)
              (w_log w ++ [EPrint; EDispatch; EOpen excel_file_path false;
                           ESave excel_file_path; EClose false; EQuit])).
Proof.
  intros Hwb Hp Hno.
  assert (Hre : use_regex = true -> exists p, pattern = Some p).
  { intros ->. exact (make_pattern_regex _ _ _ Hp). }
  pose proof (make_pattern_ok _ _ _ _ Hp) as Hm.
  apply not_true_iff_false in Hno.
  assert (Hsh : forall sh w0, In sh (wb_sheets wb) ->
    replace_sheet pattern search_string replace_string exact_match use_regex [] sh w0
    = (Ok (sh, []), w0)).
  { intros sh w0 Hin. apply replace_sheet_nohit; [exact Hre| |].
    - intros row c Hrow Hc. apply not_true_is_false. intros Hh. apply Hno.
      unfold hit_in_book. apply existsb_exists. exists sh. split; [exact Hin|].
      apply orb_true_iff. left. apply existsb_exists. exists row. split; [exact Hrow|].
      apply existsb_exists. exists c. auto.
    - intros s Hs. apply not_true_is_false. intros Hh. apply Hno.
      unfold hit_in_book. apply existsb_exists. exists sh. split; [exact Hin|].
      apply orb_true_iff. right. apply existsb_exists. exists s. auto. }
  unfold replace_string_in_book, bind at 1, emit.
  unfold bind at 1. cbn [w_files w_log].
  unfold bind at 1, catch, com_open, bind at 1. cbn [w_files w_log].
  rewrite Hwb. unfold ret. cbn [w_files w_log].
  unfold bind at 1. rewrite Hm.
  unfold bind at 1. rewrite map_accumM_id by (intros sh Hin; apply Hsh; exact Hin).
  unfold save_as, write_file, emit, bind, ret. cbn [fst snd w_files w_log].
  destruct wb as [sheets]. cbn [wb_sheets]. rewrite <- !app_assoc. reflexivity.
Qed.

(** When no cell or shape text of the workbook is a match, a successful
    [replace_string_in_book] reports no change, yet still saves the workbook
    back unchanged (the save happens whatever was replaced), then closes it and
    quits. *)
Theorem replace_without_match_saves_same `{RE : RegexEngine} (w : world)
    (excel_file_path search_string replace_string : pystr)
    (exact_match use_regex : bool) (wb : workbook) (pattern : option re_pat) :
  w_files w excel_file_path = Some wb ->
  fst (make_pattern search_string exact_match use_regex w) = Ok pattern ->
  hit_in_book pattern search_string exact_match use_regex wb = false ->
  replace_string_in_book excel_file_path search_string replace_string exact_match
    use_regex w
  = (Ok [], mk_world (fun q => if str_eqb q excel_file_path then Some wb else w_files w q)
              (w_log w ++ [EPrint; EDispatch; EOpen excel_file_path false;
                           ESave excel_file_path; EClose false; EQuit])).
Proof.
  exact (@replace_nohit_run RE w excel_file_path search_string replace_string
           exact_match use_regex wb pattern).
Qed.

Lemma replace_without_match_saves_same_witness :
  replace_string_in_book (RE := fragment_engine) book_path (py "zzz") (py "y") false false
    sample_world
  = (Ok [], mk_world (fun q => if str_eqb q book_path then Some sample_book
                               else w_files sample_world q)
              (w_log sample_world ++ [EPrint; EDispatch; EOpen book_path false;
                                      ESave book_path; EClose false; EQuit])).
Proof.
  apply (replace_without_match_saves_same (RE := fragment_engine) sample_world book_path
           (py "zzz") (py "y") false false (pattern := None)).
  - reflexivity.
  - reflexivity.
  - vm_compute. reflexivity.
Defined.

(** *** Edge cases of the order argument and of a missing file *)

(** [sort_sheet] rejects an order other than 'asc' or 'desc' (in any case)
    with [ValueError] before opening anything: the world is unchanged; and
    the order argument only counts through its lower-case form. *)
Theorem sort_sheet_invalid_order (w : world) (excel_file_path order order' : pystr) :
  (existsb (str_eqb (py_lower order)) [py "asc"; py "desc"] = false ->
   sort_sheet excel_file_path order w = (Raise ValueError, w)) /\
  (py_lower order = py_lower order' ->
   sort_sheet excel_file_path order w = sort_sheet excel_file_path order' w).
Proof.
  split.
  - intros H. unfold sort_sheet. rewrite H. reflexivity.
  - intros H. unfold sort_sheet. rewrite H. reflexivity.
Qed.

Lemma sort_sheet_invalid_order_witness :
  sort_sheet book_path (py "up") sample_world = (Raise ValueError, sample_world) /\
  sort_sheet book_path (py "DESC") sample_world
  = sort_sheet book_path (py "desc") sample_world.
Proof.
  split.
  - exact (proj1 (sort_sheet_invalid_order sample_world book_path (py "up") (py "up"))
             eq_refl).
  - exact (proj2 (sort_sheet_invalid_order sample_world book_path (py "DESC") (py "desc"))
             eq_refl).
Defined.

(** When the workbook cannot be opened, [search_string_in_book] raises right
    after starting Excel: the application is never quit. *)
Theorem search_missing_file `{RE : RegexEngine} (w : world)
    (excel_file_path search_string : pystr) (exact_match use_regex : bool) :
  w_files w excel_file_path = None ->
  search_string_in_book excel_file_path search_string exact_match use_regex w
  = (Raise OpenError, mk_world (w_files w) (w_log w ++ [EDispatch])).
Proof.
  intros H. unfold search_string_in_book, bind, emit, com_open. cbn [w_files w_log].
  rewrite H. reflexivity.
Qed.

Lemma search_missing_file_witness :
  search_string_in_book (RE := fragment_engine) (py "C:\none.xlsx") (py "abc") false false
    sample_world
  = (Raise OpenError, mk_world (w_files sample_world) (w_log sample_world ++ [EDispatch])).
Proof.
  exact (search_missing_file (RE := fragment_engine) sample_world (py "C:\none.xlsx")
           (py "abc") false false eq_refl).
Defined.
